(** * ShieldHer: the mission state and its mutation API

    A shallow embedding of the two generations of the ShieldHer backend:

    - [Backend]   : [backend/drone_state.py] and [backend/app.py] (v1), the
                    Flask server with the timed simulation thread;
    - [ShieldHer] : [shieldher/config.py], [shieldher/core/drone_state.py],
                    [shieldher/core/mission_controller.py] and
                    [shieldher/server/app.py] (v1.1).

    Both are written over [Py], a model of the Python values a decoded JSON
    body can hold and of the builtins the handlers call on them, and over
    [Sched], a model of daemon threads that sleep and assign. *)

From Stdlib Require Import ZArith Bool List String Ascii Lia.
From Stdlib Require Import DecimalString.
From Stdlib Require Import Floats.SpecFloat.
Import ListNotations.

Open Scope Z_scope.
Open Scope string_scope.

Set Warnings "-register-all".

(* ================================================================== *)
(** * Python values and builtins *)

Module Py.

(** Python's [float] is an IEEE 754 binary64 number. *)
Definition float : Type := spec_float.

Definition float_zero : float := S754_zero false.

(** What [request.get_json(force=True, silent=True)] can return: [PNone]
    when the body is missing or is not JSON (and for the JSON [null]),
    otherwise the decoded value. A [dict] keeps its items in insertion
    order; a key is looked up from the front. *)
Inductive value : Type :=
| PNone
| PBool (b : bool)
| PInt (z : Z)
| PFloat (f : float)
| PStr (s : string)
| PList (items : list value)
| PDict (items : list (string * value)).

(** The exceptions the builtins below raise. *)
Inductive exn : Type :=
| ValueError
| TypeError
| OverflowError
| AttributeError
| KeyError.

(** A computation that returns or raises. *)
Inductive result (A : Type) : Type :=
| Ok (a : A)
| Raise (e : exn).
Arguments Ok {A} a.
Arguments Raise {A} e.

Definition is_str (v : value) : bool :=
  match v with
  | PStr _ => true
  | _ => false
  end.

Definition is_none (v : value) : bool :=
  match v with
  | PNone => true
  | _ => false
  end.

(** [x != 0.0]: both zeros are false, NaN and the infinities are true. *)
Definition float_truthy (f : float) : bool :=
  match f with
  | S754_zero _ => false
  | _ => true
  end.

(** [bool(v)], the truth value of [v]. *)
Definition truthy (v : value) : bool :=
  match v with
  | PNone => false
  | PBool b => b
  | PInt z => negb (Z.eqb z 0)
  | PFloat f => float_truthy f
  | PStr s => negb (String.eqb s "")
  | PList items => match items with [] => false | _ => true end
  | PDict items => match items with [] => false | _ => true end
  end.

(** [x or y]. *)
Definition or_ (x y : value) : value :=
  if truthy x then x else y.

Fixpoint lookup (key : string) (items : list (string * value)) : option value :=
  match items with
  | [] => None
  | (k, v) :: rest => if String.eqb k key then Some v else lookup key rest
  end.

(** [data.get(key)]: only a [dict] has the method. *)
Definition get (data : value) (key : string) : result value :=
  match data with
  | PDict items =>
      match lookup key items with
      | Some v => Ok v
      | None => Ok PNone
      end
  | _ => Raise AttributeError
  end.

(** [key in data] for a [str] key: a key of a [dict], an element of a
    [list], a substring of a [str]; the other values are not iterable. *)
Definition contains (key : string) (data : value) : result bool :=
  match data with
  | PDict items =>
      Ok (match lookup key items with Some _ => true | None => false end)
  | PList items =>
      Ok (existsb (fun v => match v with
                            | PStr s => String.eqb s key
                            | _ => false
                            end) items)
  | PStr s =>
      Ok (match String.index 0 key s with Some _ => true | None => false end)
  | _ => Raise TypeError
  end.

(** [data[key]] for a [str] key. *)
Definition getitem (data : value) (key : string) : result value :=
  match data with
  | PDict items =>
      match lookup key items with
      | Some v => Ok v
      | None => Raise KeyError
      end
  | _ => Raise TypeError
  end.

(** [float(z)] for an [int]: rounded to nearest, ties to even;
    [OverflowError] when the result is out of the range of a float. *)
Definition float_of_int (z : Z) : result float :=
  match binary_normalize 53 1024 z 0 false with
  | S754_infinity _ => Raise OverflowError
  | f => Ok f
  end.

Definition str_of_int (z : Z) : string :=
  NilZero.string_of_int (Z.to_int z).

Section Builtins.

(** Two parts of the interpreter are taken as given: how [float] reads a
    [str] ([None] when it raises [ValueError]), and how [str] prints a
    float, a list or a dict. *)
Variable float_of_str : string -> option float.
Variable str_of_compound : value -> string.

(** [float(v)]. *)
Definition to_float (v : value) : result float :=
  match v with
  | PNone => Raise TypeError
  | PBool b => float_of_int (if b then 1 else 0)
  | PInt z => float_of_int z
  | PFloat f => Ok f
  | PStr s =>
      match float_of_str s with
      | Some f => Ok f
      | None => Raise ValueError
      end
  | PList _ => Raise TypeError
  | PDict _ => Raise TypeError
  end.

(** The handlers' idiom [if v is not None: v = float(v)]. *)
Definition float_unless_none (v : value) : result (option float) :=
  if is_none v then Ok None
  else match to_float v with
       | Ok f => Ok (Some f)
       | Raise e => Raise e
       end.

(** [str(v)]. *)
Definition to_str (v : value) : string :=
  match v with
  | PNone => "None"
  | PBool true => "True"
  | PBool false => "False"
  | PInt z => str_of_int z
  | PStr s => s
  | PFloat _ => str_of_compound v
  | PList _ => str_of_compound v
  | PDict _ => str_of_compound v
  end.

End Builtins.

(** [random.randint(lo, hi)]: the generator's raw output [raw] reduced to
    one of the [hi - lo + 1] integers from [lo] to [hi]. *)
Definition randint (lo hi : Z) (raw : Z) : Z :=
  lo + raw mod (hi - lo + 1).

End Py.

(* ================================================================== *)
(** * Daemon threads *)

Module Sched.

Section Threads.

(** The module-level state the threads assign to. *)
Variable S : Type.

(** What is left of a thread's body: [time.sleep(secs)], or an
    assignment to the shared state. *)
Inductive instr : Type :=
| Sleep (secs : nat)
| Assign (w : S -> S).

Definition thread : Type := list instr.

(** Run a thread for [dt] seconds. Assignments take no time; a sleep
    that is over at the end of the [dt] seconds lets the thread go on. *)
Fixpoint run_for (dt : nat) (th : thread) (s : S) : S * thread :=
  match th with
  | [] => (s, [])
  | Sleep secs :: rest =>
      if (secs <=? dt)%nat then run_for (dt - secs) rest s
      else (s, Sleep (secs - dt) :: rest)
  | Assign w :: rest => run_for dt rest (w s)
  end.

(** One second passes: every live thread runs for it, the oldest first;
    a thread that has reached its end is gone. *)
Fixpoint tick (ths : list thread) (s : S) : S * list thread :=
  match ths with
  | [] => (s, [])
  | th :: rest =>
      let (s1, th') := run_for 1 th s in
      let (s2, rest') := tick rest s1 in
      (s2, match th' with [] => rest' | _ => th' :: rest' end)
  end.

Fixpoint elapse (secs : nat) (ths : list thread) (s : S) : S * list thread :=
  match secs with
  | O => (s, ths)
  | Datatypes.S k => let (s', ths') := tick ths s in elapse k ths' s'
  end.

(** The server process: the globals of its state module, the daemon
    threads that are still running (the oldest first) and the command
    lines handed to [subprocess.Popen] so far. *)
Record process : Type := mk_process {
  globals : S;
  threads : list thread;
  launched : list (list string)
}.

Definition assign (f : S -> S) (w : process) : process :=
  {| globals := f (globals w);
     threads := threads w;
     launched := launched w |}.

(** [threading.Thread(target=..., daemon=True).start()]. *)
Definition spawn (th : thread) (w : process) : process :=
  {| globals := globals w;
     threads := threads w ++ [th];
     launched := launched w |}.

(** [subprocess.Popen(argv, ...)]. The child shares no memory with the
    server: whether it starts or not, the globals stay as they are. *)
Definition popen (argv : list string) (w : process) : process :=
  {| globals := globals w;
     threads := threads w;
     launched := launched w ++ [argv] |}.

(** [secs] seconds pass with no request. *)
Definition wait (secs : nat) (w : process) : process :=
  let (s, ths) := elapse secs (threads w) (globals w) in
  {| globals := s; threads := ths; launched := launched w |}.

(** The process as the server comes up. *)
Definition boot (s : S) : process :=
  {| globals := s; threads := []; launched := [] |}.

End Threads.

Arguments Sleep {S} secs.
Arguments Assign {S} w.
Arguments run_for {S} dt th s.
Arguments tick {S} ths s.
Arguments elapse {S} secs ths s.
Arguments mk_process {S} globals threads launched.
Arguments globals {S} p.
Arguments threads {S} p.
Arguments launched {S} p.
Arguments assign {S} f w.
Arguments spawn {S} th w.
Arguments popen {S} argv w.
Arguments wait {S} secs w.
Arguments boot {S} s.

End Sched.

(* ================================================================== *)
(** * Handlers: module state, exceptions *)

Module Eff.

Section Monad.

(** The process: the module globals and whatever runs beside the
    request handlers. *)
Variable W : Type.

(** A piece of Python code: it changes the process and returns or
    raises. What it assigned before it raised stays assigned. *)
Definition M (A : Type) : Type := W -> W * Py.result A.

Definition ret {A : Type} (a : A) : M A :=
  fun w => (w, Py.Ok a).

Definition bind {A B : Type} (m : M A) (k : A -> M B) : M B :=
  fun w =>
    match m w with
    | (w', Py.Ok a) => k a w'
    | (w', Py.Raise e) => (w', Py.Raise e)
    end.

Definition lift {A : Type} (r : Py.result A) : M A :=
  fun w => (w, r).

Definition read : M W :=
  fun w => (w, Py.Ok w).

Definition modify (f : W -> W) : M unit :=
  fun w => (f w, Py.Ok tt).

(** [try: body except (...): handler]: [caught e] says whether the
    [except] clause names [e]. *)
Definition try_except {A : Type} (body : M A) (caught : Py.exn -> bool)
    (handler : M A) : M A :=
  fun w =>
    match body w with
    | (w', Py.Ok a) => (w', Py.Ok a)
    | (w', Py.Raise e) => if caught e then handler w' else (w', Py.Raise e)
    end.

End Monad.

Arguments ret {W A} a.
Arguments bind {W A B} m k.
Arguments lift {W A} r.
Arguments read {W}.
Arguments modify {W} f.
Arguments try_except {W A} body caught handler.

(** [if b: m]. *)
Definition when {W : Type} (b : bool) (m : M W unit) : M W unit :=
  if b then m else ret tt.

(** A block over local variables [L] that start as [init], inside code
    over [W]: the locals are what the block leaves. *)
Definition locals {W L A : Type} (init : L) (block : M L A) : M W L :=
  fun w =>
    match block init with
    | (l, Py.Ok _) => (w, Py.Ok l)
    | (_, Py.Raise e) => (w, Py.Raise e)
    end.

End Eff.

Declare Scope eff_scope.
Delimit Scope eff_scope with eff.
Notation "x <- m ;; k" := (Eff.bind m (fun x => k))
  (at level 61, m at next level, right associativity) : eff_scope.
Notation "m ;;; k" := (Eff.bind m (fun _ => k))
  (at level 61, right associativity) : eff_scope.

(** [except (ValueError, TypeError)]. *)
Definition ValueError_or_TypeError (e : Py.exn) : bool :=
  match e with
  | Py.ValueError | Py.TypeError => true
  | _ => false
  end.

(** What a view returns: the status code and the JSON body. *)
Record response : Type := mk_response {
  status_code : Z;
  json : Py.value
}.

(** A coordinate as [jsonify] receives it: a float or [None]. *)
Definition coordinate (c : option Py.float) : Py.value :=
  match c with
  | Some f => Py.PFloat f
  | None => Py.PNone
  end.

(** The truth value of a coordinate, [None] being false. *)
Definition coordinate_truthy (c : option Py.float) : bool :=
  Py.truthy (coordinate c).

(* ================================================================== *)
(** * v1: backend/drone_state.py and backend/app.py *)

Module Backend.

Local Open Scope eff_scope.

(** ** drone_state.py *)

(** [gps_location]: the dict with the keys ["lat"] and ["lon"]. *)
Record gps : Type := mk_gps {
  lat : option Py.float;
  lon : option Py.float
}.

(** The module's globals. *)
Record drone_state : Type := mk_drone_state {
  drone_active : bool;
  recording : bool;
  ai_status : string;
  gps_location : gps;
  battery_level : Z
}.

(** The globals as the module is imported. *)
Definition initial : drone_state :=
  {| drone_active := false;
     recording := false;
     ai_status := "Standby";
     gps_location := {| lat := None; lon := None |};
     battery_level := 100 |}.

Definition set_drone_active (b : bool) (s : drone_state) : drone_state :=
  {| drone_active := b;
     recording := recording s;
     ai_status := ai_status s;
     gps_location := gps_location s;
     battery_level := battery_level s |}.

Definition set_recording (b : bool) (s : drone_state) : drone_state :=
  {| drone_active := drone_active s;
     recording := b;
     ai_status := ai_status s;
     gps_location := gps_location s;
     battery_level := battery_level s |}.

Definition set_ai_status (a : string) (s : drone_state) : drone_state :=
  {| drone_active := drone_active s;
     recording := recording s;
     ai_status := a;
     gps_location := gps_location s;
     battery_level := battery_level s |}.

Definition set_gps_location (g : gps) (s : drone_state) : drone_state :=
  {| drone_active := drone_active s;
     recording := recording s;
     ai_status := ai_status s;
     gps_location := g;
     battery_level := battery_level s |}.

Definition set_battery_level (b : Z) (s : drone_state) : drone_state :=
  {| drone_active := drone_active s;
     recording := recording s;
     ai_status := ai_status s;
     gps_location := gps_location s;
     battery_level := b |}.

(** [reset()]; [raw] is what the random generator yields for the call. *)
Definition reset (raw : Z) (s : drone_state) : drone_state :=
  let s := set_drone_active false s in
  let s := set_recording false s in
  let s := set_ai_status "Standby" s in
  let s := set_gps_location {| lat := None; lon := None |} s in
  set_battery_level (Py.randint 85 100 raw) s.

Definition gps_value (g : gps) : Py.value :=
  Py.PDict [("lat", coordinate (lat g)); ("lon", coordinate (lon g))].

(** [get_state()]. *)
Definition get_state (s : drone_state) : Py.value :=
  Py.PDict [("drone_active", Py.PBool (drone_active s));
            ("recording", Py.PBool (recording s));
            ("ai_status", Py.PStr (ai_status s));
            ("gps", gps_value (gps_location s));
            ("battery", Py.PInt (battery_level s))].

(** ** app.py *)

Definition process : Type := Sched.process drone_state.

(** [simulate_drone_sequence()], the body of the background thread. *)
Definition simulate_drone_sequence : Sched.thread drone_state :=
  [ Sched.Sleep 2;
    Sched.Assign (set_drone_active true);
    Sched.Assign (set_ai_status "Drone Activated");
    Sched.Sleep 3;
    Sched.Assign (set_recording true);
    Sched.Assign (set_ai_status "Camera Recording");
    Sched.Sleep 3;
    Sched.Assign (set_ai_status "Human Detected") ].

Section Views.

Variable float_of_str : string -> option Py.float.

(** [POST /start_sos]; [body] is what [request.get_json] returned. *)
Definition start_sos (body : Py.value) : Eff.M process response :=
  Eff.try_except
    (let data := Py.or_ body (Py.PDict []) in
     lat <- Eff.lift (Py.get data "lat") ;;
     lon <- Eff.lift (Py.get data "lon") ;;
     lat <- Eff.lift (Py.float_unless_none float_of_str lat) ;;
     lon <- Eff.lift (Py.float_unless_none float_of_str lon) ;;
     Eff.modify (Sched.assign (set_gps_location {| lat := lat; lon := lon |})))
    ValueError_or_TypeError
    (Eff.modify (Sched.assign (set_gps_location {| lat := None; lon := None |}))) ;;;
  Eff.modify (Sched.assign (set_drone_active false)) ;;;
  Eff.modify (Sched.assign (set_recording false)) ;;;
  Eff.modify (Sched.assign (set_ai_status "Initializing...")) ;;;
  Eff.modify (Sched.spawn simulate_drone_sequence) ;;;
  w <- Eff.read ;;
  let gps_note :=
    if coordinate_truthy (lat (gps_location (Sched.globals w)))
    then "with GPS" else "without GPS (unavailable)" in
  Eff.ret {| status_code := 200;
             json := Py.PDict
               [("message", Py.PStr ("SOS received. Drone activating "
                                     ++ gps_note ++ "."));
                ("gps", gps_value (gps_location (Sched.globals w)))] |}.

End Views.

(** [GET /status]. *)
Definition status : Eff.M process response :=
  w <- Eff.read ;;
  Eff.ret {| status_code := 200; json := get_state (Sched.globals w) |}.

(** [POST /reset]. *)
Definition reset_drone (raw : Z) : Eff.M process response :=
  Eff.modify (Sched.assign (reset raw)) ;;;
  Eff.ret {| status_code := 200;
             json := Py.PDict [("message", Py.PStr "Drone reset to standby.")] |}.

End Backend.

(* ================================================================== *)
(** * v1.1: the shieldher package *)

Module ShieldHer.

Local Open Scope eff_scope.

(** ** config.py *)

Record config : Type := mk_config {
  HOST : string;
  PORT : Z;
  MISSION_MODE : string;
  ENABLE_MANUAL_TRIGGER : bool
}.

(** The file as it is in the repository. *)
Definition shipped : config :=
  {| HOST := "0.0.0.0";
     PORT := 5000;
     MISSION_MODE := "LOCAL";
     ENABLE_MANUAL_TRIGGER := true |}.

(** ** core/drone_state.py *)

Record gps : Type := mk_gps {
  lat : option Py.float;
  lon : option Py.float
}.

(** The module's globals. [ai_status] is whatever was last assigned to
    it: [update_ai_status] stores its argument as it comes. *)
Record drone_state : Type := mk_drone_state {
  drone_active : bool;
  recording_active : bool;
  ai_status : Py.value;
  gps_location : gps;
  battery_level : Z
}.

Definition initial : drone_state :=
  {| drone_active := false;
     recording_active := false;
     ai_status := Py.PStr "Standby";
     gps_location := {| lat := None; lon := None |};
     battery_level := 95 |}.

Definition set_drone_active (b : bool) (s : drone_state) : drone_state :=
  {| drone_active := b;
     recording_active := recording_active s;
     ai_status := ai_status s;
     gps_location := gps_location s;
     battery_level := battery_level s |}.

Definition set_recording_active (b : bool) (s : drone_state) : drone_state :=
  {| drone_active := drone_active s;
     recording_active := b;
     ai_status := ai_status s;
     gps_location := gps_location s;
     battery_level := battery_level s |}.

Definition set_ai_status (a : Py.value) (s : drone_state) : drone_state :=
  {| drone_active := drone_active s;
     recording_active := recording_active s;
     ai_status := a;
     gps_location := gps_location s;
     battery_level := battery_level s |}.

Definition set_gps_location (g : gps) (s : drone_state) : drone_state :=
  {| drone_active := drone_active s;
     recording_active := recording_active s;
     ai_status := ai_status s;
     gps_location := g;
     battery_level := battery_level s |}.

Definition gps_value (g : gps) : Py.value :=
  Py.PDict [("lat", coordinate (lat g)); ("lon", coordinate (lon g))].

Definition process : Type := Sched.process drone_state.

(** ** core/mission_controller.py *)

Section Controller.

Variable cfg : config.

(** [_is_jetson_mode()]. [config.py] is a module of the package, so its
    import inside the function succeeds. *)
Definition _is_jetson_mode : bool :=
  String.eqb (MISSION_MODE cfg) "JETSON".

(** [_launch_drone_script()]. *)
Definition _launch_drone_script : Eff.M process unit :=
  Eff.modify (Sched.popen ["python3"; "drone_demo.py"]).

(** [_launch_ai_script()]. *)
Definition _launch_ai_script : Eff.M process unit :=
  Eff.modify (Sched.popen ["python3"; "ai_detect.py"]).

(** [start_mission(lat, lon)]. *)
Definition start_mission (lat lon : option Py.float) : Eff.M process unit :=
  Eff.modify (Sched.assign (set_gps_location {| lat := lat; lon := lon |})) ;;;
  Eff.modify (Sched.assign (set_drone_active true)) ;;;
  Eff.modify (Sched.assign (set_recording_active true)) ;;;
  Eff.modify (Sched.assign (set_ai_status (Py.PStr "Initializing"))) ;;;
  if _is_jetson_mode
  then _launch_drone_script ;;; _launch_ai_script
  else Eff.ret tt.

End Controller.

(** [reset_mission()]. *)
Definition reset_mission : Eff.M process unit :=
  Eff.modify (Sched.assign (set_drone_active false)) ;;;
  Eff.modify (Sched.assign (set_recording_active false)) ;;;
  Eff.modify (Sched.assign (set_ai_status (Py.PStr "Standby"))) ;;;
  Eff.modify (Sched.assign (set_gps_location {| lat := None; lon := None |})).

(** [update_ai_status(status)]. *)
Definition update_ai_status (status : Py.value) : Eff.M process unit :=
  Eff.modify (Sched.assign (set_ai_status status)).

(** ** server/app.py *)

Section Views.

Variable cfg : config.
Variable float_of_str : string -> option Py.float.
Variable str_of_compound : Py.value -> string.

(** The [try] block of [mission_start], over its locals [(lat, lon)]. *)
Definition read_gps (data : Py.value)
    : Eff.M (option Py.float * option Py.float) unit :=
  Eff.try_except
    (raw_lat <- Eff.lift (Py.get data "lat") ;;
     raw_lon <- Eff.lift (Py.get data "lon") ;;
     Eff.when (negb (Py.is_none raw_lat))
       (f <- Eff.lift (Py.to_float float_of_str raw_lat) ;;
        Eff.modify (fun l => (Some f, snd l))) ;;;
     Eff.when (negb (Py.is_none raw_lon))
       (f <- Eff.lift (Py.to_float float_of_str raw_lon) ;;
        Eff.modify (fun l => (fst l, Some f))))
    ValueError_or_TypeError
    (Eff.ret tt).

(** [POST /api/mission/start]. *)
Definition mission_start (body : Py.value) : Eff.M process response :=
  let data := Py.or_ body (Py.PDict []) in
  l <- Eff.locals (None, None) (read_gps data) ;;
  let (lat, lon) := l in
  start_mission cfg lat lon ;;;
  w <- Eff.read ;;
  let gps_note :=
    match lat with
    | Some _ => "with GPS"
    | None => "without GPS (unavailable)"
    end in
  Eff.ret {| status_code := 200;
             json := Py.PDict
               [("status", Py.PStr "mission_active");
                ("message", Py.PStr ("Mission started " ++ gps_note ++ "."));
                ("gps", gps_value (gps_location (Sched.globals w)))] |}.

(** [GET /api/mission/state]. *)
Definition mission_state : Eff.M process response :=
  w <- Eff.read ;;
  let s := Sched.globals w in
  Eff.ret {| status_code := 200;
             json := Py.PDict
               [("drone_active", Py.PBool (drone_active s));
                ("recording_active", Py.PBool (recording_active s));
                ("ai_status", ai_status s);
                ("gps", gps_value (gps_location s));
                ("battery", Py.PInt (battery_level s))] |}.

(** [POST /api/mission/patch]. *)
Definition mission_patch (body : Py.value) : Eff.M process response :=
  if negb (ENABLE_MANUAL_TRIGGER cfg)
  then Eff.ret {| status_code := 403;
                  json := Py.PDict
                    [("error",
                      Py.PStr "Manual trigger is disabled in config.py.")] |}
  else
    let data := Py.or_ body (Py.PDict []) in
    (present <- Eff.lift (Py.contains "ai_status" data) ;;
     Eff.when present
       (v <- Eff.lift (Py.getitem data "ai_status") ;;
        Eff.modify (Sched.assign
          (set_ai_status (Py.PStr (Py.to_str str_of_compound v)))))) ;;;
    (present <- Eff.lift (Py.contains "drone_active" data) ;;
     Eff.when present
       (v <- Eff.lift (Py.getitem data "drone_active") ;;
        Eff.modify (Sched.assign (set_drone_active (Py.truthy v))))) ;;;
    (present <- Eff.lift (Py.contains "recording_active" data) ;;
     Eff.when present
       (v <- Eff.lift (Py.getitem data "recording_active") ;;
        Eff.modify (Sched.assign (set_recording_active (Py.truthy v))))) ;;;
    Eff.ret {| status_code := 200;
               json := Py.PDict [("status", Py.PStr "patched");
                                 ("applied", data)] |}.

(** [POST /api/mission/reset]. *)
Definition mission_reset : Eff.M process response :=
  reset_mission ;;;
  Eff.ret {| status_code := 200;
             json := Py.PDict
               [("status", Py.PStr "standby");
                ("message", Py.PStr "Mission reset. System at standby.")] |}.

End Views.

End ShieldHer.

(* ================================================================== *)
(** * tests/manual_trigger.py, the developer's console *)

Module ManualTrigger.

Definition DEFAULT_HOST : string := "http://127.0.0.1:5000".

(** [c in chars]. *)
Fixpoint char_in (c : ascii) (chars : string) : bool :=
  match chars with
  | EmptyString => false
  | String c' rest => if Ascii.eqb c c' then true else char_in c rest
  end.

(** [s.rstrip(chars)]: [s] without its trailing characters that are among
    [chars]. *)
Fixpoint rstrip (chars : string) (s : string) : string :=
  match s with
  | EmptyString => EmptyString
  | String c rest =>
      match rstrip chars rest with
      | EmptyString =>
          if char_in c chars then EmptyString else String c EmptyString
      | kept => String c kept
      end
  end.

(** [s.startswith(p)]. *)
Definition startswith (s p : string) : bool := String.prefix p s.

(** [build_base_url(host)]. *)
Definition build_base_url (host : string) : string :=
  let host := if negb (startswith host "http") then "http://" ++ host else host in
  rstrip "/" host.

(** The payloads [requests] encodes whatever its version: those with no
    NaN and no infinity in them. The console's functions are modelled on
    these. *)
Fixpoint encodable (v : Py.value) : bool :=
  match v with
  | Py.PFloat (S754_infinity _) => false
  | Py.PFloat S754_nan => false
  | Py.PList items => forallb encodable items
  | Py.PDict items => forallb (fun kv => encodable (snd kv)) items
  | _ => true
  end.

(** What answers at [base_url]: nothing, or the v1.1 server with its
    process. A server that accepts the connection and lets the three
    seconds of the timeout pass is not modelled. *)
Inductive peer : Type :=
| Down
| Up (w : ShieldHer.process).

(** What [requests] hands back: the status code, and the body when it is
    JSON. Flask answers a view that raised with a 500 whose body is not. *)
Record reply : Type := mk_reply {
  code : Z;
  body : option Py.value
}.

(** The exceptions of [requests] the console meets. *)
Inductive failure : Type :=
| ConnectionError
| HTTPError (status : Z).

(** [requests.post(url, json=..., timeout=3)] or [requests.get(url,
    timeout=3)] to a route served by [view]. *)
Definition request (view : Eff.M ShieldHer.process response) (p : peer)
    : peer * (failure + reply) :=
  match p with
  | Down => (Down, inl ConnectionError)
  | Up w =>
      match view w with
      | (w', Py.Ok r) =>
          (Up w', inr {| code := status_code r; body := Some (json r) |})
      | (w', Py.Raise _) => (Up w', inr {| code := 500; body := None |})
      end
  end.

(** [res.raise_for_status()]: [HTTPError] for a 4xx or 5xx status. *)
Definition raise_for_status (r : reply) : failure + unit :=
  if Z.leb 400 (code r) && Z.ltb (code r) 600 then inl (HTTPError (code r))
  else inr tt.

Section Console.

(** The server's configuration and the two builtins its views take. *)
Variable cfg : ShieldHer.config.
Variable float_of_str : string -> option Py.float.
Variable str_of_compound : Py.value -> string.

(** [api_patch_state(base_url, payload)]. *)
Definition api_patch_state (payload : Py.value) (p : peer) : peer * bool :=
  match request (ShieldHer.mission_patch cfg str_of_compound payload) p with
  | (p', inl _) => (p', false)
  | (p', inr res) =>
      match raise_for_status res with
      | inl _ => (p', false)
      | inr _ => (p', true)
      end
  end.

(** [api_get_state(base_url)]: the decoded body, or [None] on any
    exception. *)
Definition api_get_state (p : peer) : peer * option Py.value :=
  match request ShieldHer.mission_state p with
  | (p', inl _) => (p', None)
  | (p', inr res) =>
      match raise_for_status res with
      | inl _ => (p', None)
      | inr _ => (p', body res)
      end
  end.

(** [api_reset(base_url)]. *)
Definition api_reset (p : peer) : peer * bool :=
  match request ShieldHer.mission_reset p with
  | (p', inl _) => (p', false)
  | (p', inr res) =>
      match raise_for_status res with
      | inl _ => (p', false)
      | inr _ => (p', true)
      end
  end.

(** [api_start_mission(base_url)]: a start with both coordinates null. *)
Definition api_start_mission (p : peer) : peer * bool :=
  match request (ShieldHer.mission_start cfg float_of_str
                   (Py.PDict [("lat", Py.PNone); ("lon", Py.PNone)])) p with
  | (p', inl _) => (p', false)
  | (p', inr res) =>
      match raise_for_status res with
      | inl _ => (p', false)
      | inr _ => (p', true)
      end
  end.

(** What an entry of the menu runs; [success] is what the lambda returns:
    a bool, or [None] for [print_state]. *)
Inductive action : Type :=
| StartMission
| PatchState (payload : Py.value)
| PrintState
| ResetMission.

(** The [options] of [run_menu], the entry of ["q"] apart. *)
Definition options : list (string * (string * action)) :=
  [ ("1", ("Start mission (no GPS)", StartMission));
    ("2", ("Set AI → Initializing",
           PatchState (Py.PDict [("ai_status", Py.PStr "Initializing")])));
    ("3", ("Set AI → Monitoring",
           PatchState (Py.PDict [("ai_status", Py.PStr "Monitoring")])));
    ("4", ("Set AI → Human Detected",
           PatchState (Py.PDict [("ai_status", Py.PStr "Human Detected")])));
    ("5", ("Set AI → No Target",
           PatchState (Py.PDict [("ai_status", Py.PStr "No Target")])));
    ("6", ("Activate drone system",
           PatchState (Py.PDict [("drone_active", Py.PBool true)])));
    ("7", ("Activate recording",
           PatchState (Py.PDict [("recording_active", Py.PBool true)])));
    ("8", ("Print live server state", PrintState));
    ("9", ("Reset mission", ResetMission)) ].

Fixpoint entry (choice : string) (table : list (string * (string * action)))
    : option (string * action) :=
  match table with
  | [] => None
  | (key, e) :: rest => if String.eqb key choice then Some e else entry choice rest
  end.

(** Runs an entry's lambda; [Some b] is the bool it returned, [None] the
    [None] of [print_state]. *)
Definition perform (a : action) (p : peer) : peer * option bool :=
  match a with
  | StartMission => let (p', ok) := api_start_mission p in (p', Some ok)
  | PatchState payload => let (p', ok) := api_patch_state payload p in (p', Some ok)
  | PrintState => let (p', _) := api_get_state p in (p', None)
  | ResetMission => let (p', ok) := api_reset p in (p', Some ok)
  end.

(** What one turn of the menu loop tells the developer. *)
Inductive told : Type :=
| Exiting
| Ticked (label : string)
| Unticked
| InvalidChoice.

(** One turn of the loop of [run_menu]; [choice] is the line read, stripped
    and lowered. The tick is printed when [success is not False]. *)
Definition menu_turn (choice : string) (p : peer) : peer * told :=
  if String.eqb choice "q" then (p, Exiting)
  else match entry choice options with
       | Some (label, a) =>
           match perform a p with
           | (p', Some false) => (p', Unticked)
           | (p', _) => (p', Ticked label)
           end
       | None => (p, InvalidChoice)
       end.

End Console.

End ManualTrigger.

(* ================================================================== *)
(** * Auxiliary definitions for the statements *)

(** The value [data.get(key)] returns on a dict with the items [d]. *)
Definition field (key : string) (d : list (string * Py.value)) : Py.value :=
  match Py.lookup key d with
  | Some v => v
  | None => Py.PNone
  end.

(** The float 1.0. *)
Definition float_one : Py.float := S754_finite false 4503599627370496 (-52).

(** The float 2.0. *)
Definition float_two : Py.float := S754_finite false 4503599627370496 (-51).

(** The examples below run the views on bodies in which no [str] reaches
    [float] and no float, list or dict reaches [str]: the two builtins the
    views take are never consulted there, and the examples fix them to
    these. *)
Definition unread_float_of_str : string -> option Py.float := fun _ => None.
Definition unread_str_of_compound : Py.value -> string := fun _ => "".

(** v1: the process after the assignments of [start_sos] that follow the GPS
    block, with [g] stored as the location. *)
Definition sos_armed (g : Backend.gps) (w : Backend.process) : Backend.process :=
  Sched.spawn Backend.simulate_drone_sequence
    (Sched.assign (Backend.set_ai_status "Initializing...")
       (Sched.assign (Backend.set_recording false)
          (Sched.assign (Backend.set_drone_active false)
             (Sched.assign (Backend.set_gps_location g) w)))).

(** v1: the reply of [start_sos] when [g] is the stored location. *)
Definition sos_reply (g : Backend.gps) : response :=
  {| status_code := 200;
     json := Py.PDict
       [("message",
         Py.PStr ("SOS received. Drone activating "
                  ++ (if coordinate_truthy (Backend.lat g)
                      then "with GPS" else "without GPS (unavailable)")
                  ++ "."));
        ("gps", Backend.gps_value g)] |}.

Definition no_gps : Backend.gps := {| Backend.lat := None; Backend.lon := None |}.

(** v1.1: the reply of [mission_start] when the locals are [(la, lo)]. *)
Definition mission_reply (la lo : option Py.float) : response :=
  {| status_code := 200;
     json := Py.PDict
       [("status", Py.PStr "mission_active");
        ("message",
         Py.PStr ("Mission started "
                  ++ match la with
                     | Some _ => "with GPS"
                     | None => "without GPS (unavailable)"
                     end
                  ++ "."));
        ("gps", ShieldHer.gps_value {| ShieldHer.lat := la; ShieldHer.lon := lo |})] |}.

(** The configuration the start operations are claimed to leave. *)
Definition mission_live (la lo : option Py.float) (s : ShieldHer.drone_state) : Prop :=
  ShieldHer.gps_location s = {| ShieldHer.lat := la; ShieldHer.lon := lo |}
  /\ ShieldHer.drone_active s = true
  /\ ShieldHer.recording_active s = true
  /\ ShieldHer.ai_status s = Py.PStr "Initializing".

(** The same configuration read on the globals of v1. *)
Definition sos_live (la lo : option Py.float) (s : Backend.drone_state) : Prop :=
  Backend.gps_location s = {| Backend.lat := la; Backend.lon := lo |}
  /\ Backend.drone_active s = true
  /\ Backend.recording s = true
  /\ Backend.ai_status s = "Initializing".

(** A stored pair of coordinates that is present or absent as a unit. *)
Definition as_a_unit (la lo : option Py.float) : Prop :=
  la = None <-> lo = None.

(** v1.1: the reply of [mission_patch] when it goes through; [data] is the
    body as received, or the empty dict. *)
Definition patch_reply (data : Py.value) : response :=
  {| status_code := 200;
     json := Py.PDict [("status", Py.PStr "patched"); ("applied", data)] |}.

(** v1.1: the reply of [mission_patch] when manual patching is off. *)
Definition patch_refusal : response :=
  {| status_code := 403;
     json := Py.PDict
       [("error", Py.PStr "Manual trigger is disabled in config.py.")] |}.

(** The shipped configuration with manual patching turned off. *)
Definition hardened : ShieldHer.config :=
  {| ShieldHer.HOST := "0.0.0.0";
     ShieldHer.PORT := 5000;
     ShieldHer.MISSION_MODE := "LOCAL";
     ShieldHer.ENABLE_MANUAL_TRIGGER := false |}.

(** The specification's [applyPartialPatch], in its words: each field
    present in the input overwrites the store's field with the coerced
    value (string for the status, boolean for the two flags); a field
    absent from the input is left untouched. *)
Definition applyPartialPatch (str_of_compound : Py.value -> string)
    (fields : list (string * Py.value)) (s : ShieldHer.drone_state)
    : ShieldHer.drone_state :=
  {| ShieldHer.drone_active :=
       match Py.lookup "drone_active" fields with
       | Some v => Py.truthy v
       | None => ShieldHer.drone_active s
       end;
     ShieldHer.recording_active :=
       match Py.lookup "recording_active" fields with
       | Some v => Py.truthy v
       | None => ShieldHer.recording_active s
       end;
     ShieldHer.ai_status :=
       match Py.lookup "ai_status" fields with
       | Some v => Py.PStr (Py.to_str str_of_compound v)
       | None => ShieldHer.ai_status s
       end;
     ShieldHer.gps_location := ShieldHer.gps_location s;
     ShieldHer.battery_level := ShieldHer.battery_level s |}.

(** What reaches the v1.1 process: a request to one of the four views, a
    call of [update_ai_status] with a [str] as its signature asks, or time
    passing. *)
Inductive call : Type :=
| Start (body : Py.value)
| State
| Patch (body : Py.value)
| Reset
| UpdateAiStatus (status : string)
| Pause (secs : nat).

(** The process after one call; a view that raises leaves what it had
    assigned. *)
Definition serve (cfg : ShieldHer.config)
    (float_of_str : string -> option Py.float)
    (str_of_compound : Py.value -> string)
    (w : ShieldHer.process) (c : call) : ShieldHer.process :=
  match c with
  | Start body => fst (ShieldHer.mission_start cfg float_of_str body w)
  | State => fst (ShieldHer.mission_state w)
  | Patch body => fst (ShieldHer.mission_patch cfg str_of_compound body w)
  | Reset => fst (ShieldHer.mission_reset w)
  | UpdateAiStatus status => fst (ShieldHer.update_ai_status (Py.PStr status) w)
  | Pause secs => Sched.wait secs w
  end.

(** The process after a sequence of calls, from the server's start. *)
Definition run (cfg : ShieldHer.config)
    (float_of_str : string -> option Py.float)
    (str_of_compound : Py.value -> string)
    (calls : list call) : ShieldHer.process :=
  fold_left (serve cfg float_of_str str_of_compound) calls
    (Sched.boot ShieldHer.initial).

(** What every call preserves: no thread alive, a [str] as the status, and
    the battery level of the module's load. *)
Definition settled (w : ShieldHer.process) : Prop :=
  Sched.threads w = []
  /\ Py.is_str (ShieldHer.ai_status (Sched.globals w)) = true
  /\ ShieldHer.battery_level (Sched.globals w) = 95.

(** What reaches the v1 process: a request to one of its three JSON views,
    or time passing. The [drone_state.reset()] of the script's start is a
    [SosReset] at the head of the calls. *)
Inductive sos_call : Type :=
| SosStart (body : Py.value)
| SosStatus
| SosReset (raw : Z)
| SosPause (secs : nat).

(** The v1 process after one call. *)
Definition sos_serve (float_of_str : string -> option Py.float)
    (w : Backend.process) (c : sos_call) : Backend.process :=
  match c with
  | SosStart body => fst (Backend.start_sos float_of_str body w)
  | SosStatus => fst (Backend.status w)
  | SosReset raw => fst (Backend.reset_drone raw w)
  | SosPause secs => Sched.wait secs w
  end.

(** The v1 process after a sequence of calls, from the import of the
    modules. *)
Definition sos_run (float_of_str : string -> option Py.float)
    (calls : list sos_call) : Backend.process :=
  fold_left (sos_serve float_of_str) calls (Sched.boot Backend.initial).

(** The seconds a thread has yet to sleep. *)
Fixpoint sleep_left {S : Type} (th : Sched.thread S) : nat :=
  match th with
  | [] => 0
  | Sched.Sleep secs :: rest => secs + sleep_left rest
  | Sched.Assign _ :: rest => sleep_left rest
  end.

(** Where a simulation thread stands: in its first, second or third sleep,
    with [k] seconds of it to go. *)
Inductive stage : Type :=
| ToActivate (k : nat)
| ToRecord (k : nat)
| ToDetect (k : nat).

(** What is left of [simulate_drone_sequence] at a stage. *)
Definition stage_thread (st : stage) : Sched.thread Backend.drone_state :=
  match st with
  | ToActivate k => Sched.Sleep k :: skipn 1 Backend.simulate_drone_sequence
  | ToRecord k => Sched.Sleep k :: skipn 4 Backend.simulate_drone_sequence
  | ToDetect k => Sched.Sleep k :: skipn 7 Backend.simulate_drone_sequence
  end.

Definition stage_ok (st : stage) : Prop :=
  match st with
  | ToActivate k => (1 <= k <= 2)%nat
  | ToRecord k => (1 <= k <= 3)%nat
  | ToDetect k => (1 <= k <= 3)%nat
  end.

(** A thread that is a simulation sequence under way. *)
Definition pending (th : Sched.thread Backend.drone_state) : Prop :=
  exists st, stage_ok st /\ th = stage_thread st.

(** A thread that has yet to set [drone_active]. *)
Definition sets_drone (th : Sched.thread Backend.drone_state) : Prop :=
  exists k, th = stage_thread (ToActivate k).

(** A thread that has yet to set [recording]. *)
Definition sets_recording (th : Sched.thread Backend.drone_state) : Prop :=
  exists k, th = stage_thread (ToActivate k) \/ th = stage_thread (ToRecord k).

(** The labels the v1 code assigns to [ai_status]. *)
Definition v1_labels : list string :=
  ["Standby"; "Initializing..."; "Drone Activated"; "Camera Recording";
   "Human Detected"].

(** What every v1 call preserves. *)
Definition sos_settled (w : Backend.process) : Prop :=
  Forall pending (Sched.threads w)
  /\ Forall (fun th => (sleep_left th <= 8)%nat) (Sched.threads w)
  /\ In (Backend.ai_status (Sched.globals w)) v1_labels
  /\ 85 <= Backend.battery_level (Sched.globals w) <= 100.

(** What a thread leaves alone or only raises: the location, the battery,
    the two flags once true, a status among the labels. *)
Definition carried (s s' : Backend.drone_state) : Prop :=
  Backend.gps_location s' = Backend.gps_location s
  /\ Backend.battery_level s' = Backend.battery_level s
  /\ (Backend.drone_active s = true -> Backend.drone_active s' = true)
  /\ (Backend.recording s = true -> Backend.recording s' = true)
  /\ (In (Backend.ai_status s) v1_labels -> In (Backend.ai_status s') v1_labels).

(** The shipped configuration switched to the Jetson. *)
Definition jetson : ShieldHer.config :=
  {| ShieldHer.HOST := "0.0.0.0";
     ShieldHer.PORT := 5000;
     ShieldHer.MISSION_MODE := "JETSON";
     ShieldHer.ENABLE_MANUAL_TRIGGER := true |}.

(** Two v1.1 processes with the same globals and the same threads. *)
Definition same_mission (w1 w2 : ShieldHer.process) : Prop :=
  Sched.globals w1 = Sched.globals w2 /\ Sched.threads w1 = Sched.threads w2.

(** Splits a stage into the few values its seconds can take. *)
Ltac stage_cases st Hok :=
  destruct st as [k | k | k]; simpl in Hok;
  (destruct k as [ | [ | [ | [ | k]]]]; try lia); clear Hok.

(** Names the stage a thread is at. *)
Ltac find_stage :=
  first [ exists (ToActivate 1); split; [simpl; lia | reflexivity]
        | exists (ToActivate 2); split; [simpl; lia | reflexivity]
        | exists (ToRecord 1); split; [simpl; lia | reflexivity]
        | exists (ToRecord 2); split; [simpl; lia | reflexivity]
        | exists (ToRecord 3); split; [simpl; lia | reflexivity]
        | exists (ToDetect 1); split; [simpl; lia | reflexivity]
        | exists (ToDetect 2); split; [simpl; lia | reflexivity]
        | exists (ToDetect 3); split; [simpl; lia | reflexivity] ].

(** Unfolds the combinators a view is written with. *)
Ltac unfold_eff :=
  unfold Eff.locals, Eff.when, Eff.bind, Eff.try_except, Eff.lift,
    Eff.modify, Eff.read, Eff.ret.

(* ================================================================== *)
(** * What the views compute *)

Section ViewFacts.

Variable float_of_str : string -> option Py.float.
Variable str_of_compound : Py.value -> string.

Lemma get_dict (key : string) (d : list (string * Py.value)) :
  Py.get (Py.PDict d) key = Py.Ok (field key d).
Proof.
  unfold Py.get, field. destruct (Py.lookup key d); reflexivity.
Qed.

(** [body or {}] of a dict is that dict, empty or not. *)
Lemma or_dict (d : list (string * Py.value)) :
  Py.or_ (Py.PDict d) (Py.PDict []) = Py.PDict d.
Proof.
  destruct d; reflexivity.
Qed.

(** [start_sos] in one equation: what it leaves and what it returns. *)
Lemma start_sos_outcome (body : Py.value) (w : Backend.process) :
  Backend.start_sos float_of_str body w =
  match Py.or_ body (Py.PDict []) with
  | Py.PDict d =>
      match Py.float_unless_none float_of_str (field "lat" d) with
      | Py.Ok la =>
          match Py.float_unless_none float_of_str (field "lon" d) with
          | Py.Ok lo =>
              let g := {| Backend.lat := la; Backend.lon := lo |} in
              (sos_armed g w, Py.Ok (sos_reply g))
          | Py.Raise e =>
              if ValueError_or_TypeError e
              then (sos_armed no_gps w, Py.Ok (sos_reply no_gps))
              else (w, Py.Raise e)
          end
      | Py.Raise e =>
          if ValueError_or_TypeError e
          then (sos_armed no_gps w, Py.Ok (sos_reply no_gps))
          else (w, Py.Raise e)
      end
  | _ => (w, Py.Raise Py.AttributeError)
  end.
Proof.
  unfold Backend.start_sos. unfold_eff.
  destruct (Py.or_ body (Py.PDict [])) as [ | b | z | f | s | l | d ];
    try reflexivity.
  rewrite !get_dict.
  destruct (Py.float_unless_none float_of_str (field "lat" d)) as [la | e].
  - destruct (Py.float_unless_none float_of_str (field "lon" d)) as [lo | e].
    + reflexivity.
    + destruct e; reflexivity.
  - destruct e; reflexivity.
Qed.

(** [start_mission] always returns, and leaves this process. *)
Lemma start_mission_outcome (cfg : ShieldHer.config) (la lo : option Py.float)
    (w : ShieldHer.process) :
  exists w',
    ShieldHer.start_mission cfg la lo w = (w', Py.Ok tt)
    /\ mission_live la lo (Sched.globals w')
    /\ ShieldHer.battery_level (Sched.globals w')
       = ShieldHer.battery_level (Sched.globals w)
    /\ Sched.threads w' = Sched.threads w.
Proof.
  unfold ShieldHer.start_mission, ShieldHer._launch_drone_script,
    ShieldHer._launch_ai_script. unfold_eff.
  destruct (ShieldHer._is_jetson_mode cfg);
    (eexists; split; [reflexivity | repeat split]).
Qed.

(** [mission_start] in one equation. *)
Lemma mission_start_outcome (cfg : ShieldHer.config) (body : Py.value)
    (w : ShieldHer.process) :
  ShieldHer.mission_start cfg float_of_str body w =
  match Py.or_ body (Py.PDict []) with
  | Py.PDict d =>
      match Py.float_unless_none float_of_str (field "lat" d) with
      | Py.Ok la =>
          match Py.float_unless_none float_of_str (field "lon" d) with
          | Py.Ok lo =>
              (fst (ShieldHer.start_mission cfg la lo w),
               Py.Ok (mission_reply la lo))
          | Py.Raise e =>
              if ValueError_or_TypeError e
              then (fst (ShieldHer.start_mission cfg la None w),
                    Py.Ok (mission_reply la None))
              else (w, Py.Raise e)
          end
      | Py.Raise e =>
          if ValueError_or_TypeError e
          then (fst (ShieldHer.start_mission cfg None None w),
                Py.Ok (mission_reply None None))
          else (w, Py.Raise e)
      end
  | _ => (w, Py.Raise Py.AttributeError)
  end.
Proof.
  unfold ShieldHer.mission_start, ShieldHer.read_gps, ShieldHer.start_mission,
    ShieldHer._launch_drone_script, ShieldHer._launch_ai_script,
    Py.float_unless_none. unfold_eff.
  destruct (Py.or_ body (Py.PDict [])) as [ | b | z | f | s | l | d ];
    try reflexivity.
  rewrite !get_dict.
  destruct (Py.is_none (field "lat" d)); simpl.
  - destruct (Py.is_none (field "lon" d)); simpl.
    + destruct (ShieldHer._is_jetson_mode cfg); reflexivity.
    + destruct (Py.to_float float_of_str (field "lon" d)) as [lo | e]; simpl.
      * destruct (ShieldHer._is_jetson_mode cfg); reflexivity.
      * destruct e; simpl; try reflexivity;
          destruct (ShieldHer._is_jetson_mode cfg); reflexivity.
  - destruct (Py.to_float float_of_str (field "lat" d)) as [la | e]; simpl.
    + destruct (Py.is_none (field "lon" d)); simpl.
      * destruct (ShieldHer._is_jetson_mode cfg); reflexivity.
      * destruct (Py.to_float float_of_str (field "lon" d)) as [lo | e]; simpl.
        -- destruct (ShieldHer._is_jetson_mode cfg); reflexivity.
        -- destruct e; simpl; try reflexivity;
             destruct (ShieldHer._is_jetson_mode cfg); reflexivity.
    + destruct e; simpl; try reflexivity;
        destruct (ShieldHer._is_jetson_mode cfg); reflexivity.
Qed.

(** What [start_mission] stores as the location. *)
Lemma start_mission_gps (cfg : ShieldHer.config) (la lo : option Py.float)
    (w : ShieldHer.process) :
  ShieldHer.gps_location (Sched.globals (fst (ShieldHer.start_mission cfg la lo w)))
  = {| ShieldHer.lat := la; ShieldHer.lon := lo |}.
Proof.
  destruct (start_mission_outcome cfg la lo w) as (w' & Hrun & (Hg & _) & _).
  rewrite Hrun. exact Hg.
Qed.

(** A coordinate comes out absent exactly when its field is missing or
    [null]. *)
Lemma float_unless_none_absent (v : Py.value) (c : option Py.float) :
  Py.float_unless_none float_of_str v = Py.Ok c ->
  (c = None <-> v = Py.PNone).
Proof.
  unfold Py.float_unless_none, Py.to_float.
  destruct v; simpl; intro H.
  all: repeat match type of H with
              | context [match ?x with _ => _ end] => destruct x
              end.
  all: try discriminate.
  all: injection H as <-; split; intro; first [reflexivity | discriminate].
Qed.

End ViewFacts.

(* ================================================================== *)
(** * Starting a mission *)

(** C1, as amended. [start_mission] of v1.1 leaves, for every pair of
    floats, gps = (lat, lon), drone_active = true, recording_active = true
    and ai_status = "Initializing", and the state view read next returns
    just that. The [/start_sos] view of v1, given a body whose lat and lon
    convert to the floats [la] and [lo], stores gps = (la, lo) and answers
    200, but leaves drone_active = false, recording = false and
    ai_status = "Initializing...": its flags are raised later, by the
    simulation thread. *)
Theorem start_leaves_store :
  forall (cfg : ShieldHer.config) (float_of_str : string -> option Py.float)
         (la lo : Py.float),
    (forall w : ShieldHer.process,
        exists w',
          ShieldHer.start_mission cfg (Some la) (Some lo) w = (w', Py.Ok tt)
          /\ mission_live (Some la) (Some lo) (Sched.globals w')
          /\ ShieldHer.mission_state w' =
             (w', Py.Ok {| status_code := 200;
                           json := Py.PDict
                             [("drone_active", Py.PBool true);
                              ("recording_active", Py.PBool true);
                              ("ai_status", Py.PStr "Initializing");
                              ("gps", Py.PDict [("lat", Py.PFloat la);
                                                ("lon", Py.PFloat lo)]);
                              ("battery",
                               Py.PInt (ShieldHer.battery_level
                                          (Sched.globals w)))] |}))
    /\ (forall (d : list (string * Py.value)) (w : Backend.process),
           Py.float_unless_none float_of_str (field "lat" d) = Py.Ok (Some la) ->
           Py.float_unless_none float_of_str (field "lon" d) = Py.Ok (Some lo) ->
           exists w' r,
             Backend.start_sos float_of_str (Py.PDict d) w = (w', Py.Ok r)
             /\ status_code r = 200
             /\ Backend.gps_location (Sched.globals w')
                = {| Backend.lat := Some la; Backend.lon := Some lo |}
             /\ Backend.drone_active (Sched.globals w') = false
             /\ Backend.recording (Sched.globals w') = false
             /\ Backend.ai_status (Sched.globals w') = "Initializing...").
Proof.
  intros cfg float_of_str la lo. split.
  - intro w.
    destruct (start_mission_outcome cfg (Some la) (Some lo) w)
      as (w' & Hrun & Hlive & Hbat & _).
    exists w'. split; [exact Hrun | split; [exact Hlive | ]].
    destruct Hlive as (Hg & Hd & Hr & Ha).
    unfold ShieldHer.mission_state. unfold_eff.
    rewrite Hg, Hd, Hr, Ha, Hbat. reflexivity.
  - intros d w Hla Hlo.
    rewrite start_sos_outcome, or_dict, Hla, Hlo.
    eexists. eexists. split; [reflexivity | ].
    repeat split.
Qed.

(** The hypotheses of [start_leaves_store] at the body
    [{"lat": 1.0, "lon": 2.0}]. *)
Lemma start_leaves_store_witness :
  exists w' r,
    Backend.start_sos unread_float_of_str
      (Py.PDict [("lat", Py.PFloat float_one); ("lon", Py.PFloat float_two)])
      (Sched.boot Backend.initial) = (w', Py.Ok r)
    /\ status_code r = 200
    /\ Backend.gps_location (Sched.globals w')
       = {| Backend.lat := Some float_one; Backend.lon := Some float_two |}
    /\ Backend.drone_active (Sched.globals w') = false
    /\ Backend.recording (Sched.globals w') = false
    /\ Backend.ai_status (Sched.globals w') = "Initializing...".
Proof.
  apply (proj2 (start_leaves_store ShieldHer.shipped unread_float_of_str
                  float_one float_two)
           [("lat", Py.PFloat float_one); ("lon", Py.PFloat float_two)]
           (Sched.boot Backend.initial));
    reflexivity.
Defined.

(** C1 as stated fails on v1: after [/start_sos] with the body
    [{"lat": 1.0, "lon": 2.0}] the flags are off and the status is
    "Initializing...", not the claimed configuration. *)
Lemma start_sos_not_live :
  let s := Sched.globals
             (fst (Backend.start_sos unread_float_of_str
                     (Py.PDict [("lat", Py.PFloat float_one);
                                ("lon", Py.PFloat float_two)])
                     (Sched.boot Backend.initial))) in
  Backend.drone_active s = false
  /\ Backend.recording s = false
  /\ Backend.ai_status s = "Initializing..."
  /\ ~ sos_live (Some float_one) (Some float_two) s.
Proof.
  cbv zeta. repeat split.
  intros (_ & Hactive & _). vm_compute in Hactive. discriminate.
Qed.

(* ================================================================== *)
(** * The simulation sequence *)

Section Time.

Variable S : Type.

Lemma elapse_no_thread (secs : nat) (s : S) :
  Sched.elapse secs [] s = (s, []).
Proof.
  induction secs as [ | k IH]; simpl; [reflexivity | exact IH].
Qed.

Lemma elapse_add (a b : nat) :
  forall (ths : list (Sched.thread S)) (s : S),
    Sched.elapse (a + b) ths s =
    let (s', ths') := Sched.elapse a ths s in Sched.elapse b ths' s'.
Proof.
  induction a as [ | k IH]; intros ths s; simpl.
  - reflexivity.
  - destruct (Sched.tick ths s) as [s1 ths1]. apply IH.
Qed.

Lemma wait_add (a b : nat) (w : Sched.process S) :
  Sched.wait (a + b) w = Sched.wait b (Sched.wait a w).
Proof.
  unfold Sched.wait. rewrite elapse_add.
  destruct (Sched.elapse a (Sched.threads w) (Sched.globals w)) as [s1 ths1].
  simpl. reflexivity.
Qed.

(** With no thread alive, time changes nothing. *)
Lemma wait_no_thread (secs : nat) (w : Sched.process S) :
  Sched.threads w = [] -> Sched.wait secs w = w.
Proof.
  intro H. destruct w as [s ths l]. simpl in H. subst ths.
  unfold Sched.wait. simpl. rewrite elapse_no_thread. reflexivity.
Qed.

End Time.

Lemma start_sos_returns (float_of_str : string -> option Py.float)
    (body : Py.value) (w w' : Backend.process) (r : response) :
  Backend.start_sos float_of_str body w = (w', Py.Ok r) ->
  exists g, w' = sos_armed g w /\ r = sos_reply g.
Proof.
  rewrite start_sos_outcome.
  destruct (Py.or_ body (Py.PDict [])) as [ | b | z | f | s | l | d ];
    try discriminate.
  destruct (Py.float_unless_none float_of_str (field "lat" d)) as [la | e].
  - destruct (Py.float_unless_none float_of_str (field "lon" d)) as [lo | e].
    + intro H. injection H as <- <-. eexists. split; reflexivity.
    + destruct (ValueError_or_TypeError e); [ | discriminate].
      intro H. injection H as <- <-. eexists. split; reflexivity.
  - destruct (ValueError_or_TypeError e); [ | discriminate].
    intro H. injection H as <- <-. eexists. split; reflexivity.
Qed.

(** The sequencer of one mission, second by second, on a process with no
    other thread. *)
Lemma sequence_alone (g : Backend.gps) (w : Backend.process) (t : nat) :
  Sched.threads w = [] ->
  let s := Sched.globals (Sched.wait t (sos_armed g w)) in
  ((t < 2)%nat ->
     Backend.drone_active s = false /\ Backend.recording s = false
     /\ Backend.ai_status s = "Initializing...")
  /\ ((2 <= t < 5)%nat ->
        Backend.drone_active s = true /\ Backend.recording s = false
        /\ Backend.ai_status s = "Drone Activated")
  /\ ((5 <= t < 8)%nat ->
        Backend.drone_active s = true /\ Backend.recording s = true
        /\ Backend.ai_status s = "Camera Recording")
  /\ ((8 <= t)%nat ->
        Backend.drone_active s = true /\ Backend.recording s = true
        /\ Backend.ai_status s = "Human Detected"
        /\ Sched.threads (Sched.wait t (sos_armed g w)) = []
        /\ Sched.wait t (sos_armed g w) = Sched.wait 8 (sos_armed g w)).
Proof.
  intro Hths. destruct w as [s0 ths l]. simpl in Hths. subst ths.
  cbv zeta.
  assert (Hlate : forall k, Sched.wait (8 + k) (sos_armed g (Sched.mk_process s0 [] l))
                            = Sched.wait 8 (sos_armed g (Sched.mk_process s0 [] l))).
  { intro k. rewrite wait_add. apply wait_no_thread. reflexivity. }
  split; [ | split; [ | split]]; intro Ht.
  1-3: do 8 (destruct t as [ | t]; [first [lia | repeat split] | ]); lia.
  replace t with (8 + (t - 8))%nat by lia. rewrite Hlate. repeat split.
Qed.

(** C3, as amended. In v1 every [/start_sos] that returns starts one more
    simulation thread; when no other thread is alive and no request comes
    in between, the globals show drone_active = false, recording = false,
    "Initializing..." before T+2s, drone_active = true with "Drone
    Activated" from T+2s, recording = true with "Camera Recording" from
    T+5s, and "Human Detected" from T+8s, when the thread has ended and
    nothing changes any more. In v1.1 [start_mission] starts no thread in
    any mode: with none alive, the process stays as the call left it. *)
Theorem simulation_timeline :
  (forall (float_of_str : string -> option Py.float) (body : Py.value)
          (w w' : Backend.process) (r : response),
      Backend.start_sos float_of_str body w = (w', Py.Ok r) ->
      Sched.threads w' = (Sched.threads w ++ [Backend.simulate_drone_sequence])%list
      /\ (Sched.threads w = [] ->
          forall t : nat,
            ((t < 2)%nat ->
               Backend.drone_active (Sched.globals (Sched.wait t w')) = false
               /\ Backend.recording (Sched.globals (Sched.wait t w')) = false
               /\ Backend.ai_status (Sched.globals (Sched.wait t w'))
                  = "Initializing...")
            /\ ((2 <= t < 5)%nat ->
                  Backend.drone_active (Sched.globals (Sched.wait t w')) = true
                  /\ Backend.recording (Sched.globals (Sched.wait t w')) = false
                  /\ Backend.ai_status (Sched.globals (Sched.wait t w'))
                     = "Drone Activated")
            /\ ((5 <= t < 8)%nat ->
                  Backend.drone_active (Sched.globals (Sched.wait t w')) = true
                  /\ Backend.recording (Sched.globals (Sched.wait t w')) = true
                  /\ Backend.ai_status (Sched.globals (Sched.wait t w'))
                     = "Camera Recording")
            /\ ((8 <= t)%nat ->
                  Backend.drone_active (Sched.globals (Sched.wait t w')) = true
                  /\ Backend.recording (Sched.globals (Sched.wait t w')) = true
                  /\ Backend.ai_status (Sched.globals (Sched.wait t w'))
                     = "Human Detected"
                  /\ Sched.threads (Sched.wait t w') = []
                  /\ Sched.wait t w' = Sched.wait 8 w')))
  /\ (forall (cfg : ShieldHer.config) (la lo : option Py.float)
             (w : ShieldHer.process),
         Sched.threads (fst (ShieldHer.start_mission cfg la lo w))
         = Sched.threads w
         /\ (Sched.threads w = [] ->
             forall t : nat,
               Sched.wait t (fst (ShieldHer.start_mission cfg la lo w))
               = fst (ShieldHer.start_mission cfg la lo w))).
Proof.
  split.
  - intros float_of_str body w w' r Hrun.
    destruct (start_sos_returns _ _ _ _ _ Hrun) as (g & -> & _).
    split; [reflexivity | ].
    intros Hths t. exact (sequence_alone g w t Hths).
  - intros cfg la lo w.
    destruct (start_mission_outcome cfg la lo w) as (w' & Hrun & _ & _ & Hths).
    rewrite Hrun. simpl. split; [exact Hths | ].
    intros Hnone t. apply wait_no_thread. congruence.
Qed.

(** The hypotheses of [simulation_timeline] at an empty body on the fresh
    v1 process, observed at T+3s. *)
Lemma simulation_timeline_witness :
  Sched.threads (Sched.boot Backend.initial) = []
  /\ Backend.drone_active
       (Sched.globals
          (Sched.wait 3 (sos_armed no_gps (Sched.boot Backend.initial)))) = true
  /\ Backend.recording
       (Sched.globals
          (Sched.wait 3 (sos_armed no_gps (Sched.boot Backend.initial)))) = false
  /\ Backend.ai_status
       (Sched.globals
          (Sched.wait 3 (sos_armed no_gps (Sched.boot Backend.initial))))
     = "Drone Activated".
Proof.
  split; [reflexivity | ].
  refine (proj1 (proj2 (proj2 (proj1 simulation_timeline unread_float_of_str
            Py.PNone (Sched.boot Backend.initial)
            (sos_armed no_gps (Sched.boot Backend.initial))
            (sos_reply no_gps) eq_refl) eq_refl 3%nat)) _).
  split; [apply le_S, le_n | apply le_S, le_n].
Defined.

(** C3 as stated fails on v1.1: with the shipped configuration (LOCAL mode)
    [start_mission] on the fresh process starts no thread, and two seconds
    later the status is still "Initializing", not "Drone Activated". *)
Lemma local_start_arms_no_sequencer :
  Sched.threads
    (fst (ShieldHer.start_mission ShieldHer.shipped None None
            (Sched.boot ShieldHer.initial))) = []
  /\ ShieldHer.ai_status
       (Sched.globals
          (Sched.wait 2
             (fst (ShieldHer.start_mission ShieldHer.shipped None None
                     (Sched.boot ShieldHer.initial)))))
     = Py.PStr "Initializing"
  /\ ShieldHer.ai_status
       (Sched.globals
          (Sched.wait 2
             (fst (ShieldHer.start_mission ShieldHer.shipped None None
                     (Sched.boot ShieldHer.initial)))))
     <> Py.PStr "Drone Activated".
Proof.
  repeat split. vm_compute. discriminate.
Qed.

(* ================================================================== *)
(** * The GPS fields of a start request *)

(** C4, as amended. For a start request whose body is a JSON object:
    in v1, when [float] raises ValueError or TypeError on a lat or lon that
    is there, the stored location has both coordinates absent and the
    request is answered with 200; in v1.1 the same holds when it is lat that
    [float] rejects. In both generations, when both fields convert, each
    coordinate is stored on its own and is absent exactly when its field is
    missing or null: the stored pair may hold one coordinate alone. *)
Theorem malformed_gps :
  forall (float_of_str : string -> option Py.float)
         (d : list (string * Py.value)),
    (forall (w : Backend.process) (e : Py.exn),
        Py.float_unless_none float_of_str (field "lat" d) = Py.Raise e
        \/ (exists la,
               Py.float_unless_none float_of_str (field "lat" d) = Py.Ok la
               /\ Py.float_unless_none float_of_str (field "lon" d)
                  = Py.Raise e) ->
        ValueError_or_TypeError e = true ->
        exists w' r,
          Backend.start_sos float_of_str (Py.PDict d) w = (w', Py.Ok r)
          /\ status_code r = 200
          /\ Backend.gps_location (Sched.globals w') = no_gps)
    /\ (forall (cfg : ShieldHer.config) (w : ShieldHer.process) (e : Py.exn),
           Py.float_unless_none float_of_str (field "lat" d) = Py.Raise e ->
           ValueError_or_TypeError e = true ->
           exists w' r,
             ShieldHer.mission_start cfg float_of_str (Py.PDict d) w
             = (w', Py.Ok r)
             /\ status_code r = 200
             /\ ShieldHer.gps_location (Sched.globals w')
                = {| ShieldHer.lat := None; ShieldHer.lon := None |})
    /\ (forall (cfg : ShieldHer.config) (w1 : Backend.process)
               (w2 : ShieldHer.process) (la lo : option Py.float),
           Py.float_unless_none float_of_str (field "lat" d) = Py.Ok la ->
           Py.float_unless_none float_of_str (field "lon" d) = Py.Ok lo ->
           (exists w' r,
               Backend.start_sos float_of_str (Py.PDict d) w1 = (w', Py.Ok r)
               /\ status_code r = 200
               /\ Backend.gps_location (Sched.globals w')
                  = {| Backend.lat := la; Backend.lon := lo |})
           /\ (exists w' r,
                  ShieldHer.mission_start cfg float_of_str (Py.PDict d) w2
                  = (w', Py.Ok r)
                  /\ status_code r = 200
                  /\ ShieldHer.gps_location (Sched.globals w')
                     = {| ShieldHer.lat := la; ShieldHer.lon := lo |})
           /\ (la = None <-> field "lat" d = Py.PNone)
           /\ (lo = None <-> field "lon" d = Py.PNone)).
Proof.
  intros float_of_str d. repeat apply conj.
  - intros w e Hraise Hcaught.
    rewrite start_sos_outcome, or_dict.
    destruct Hraise as [Hla | (la & Hla & Hlo)].
    + rewrite Hla, Hcaught. eexists. eexists.
      split; [reflexivity | split; reflexivity].
    + rewrite Hla, Hlo, Hcaught. eexists. eexists.
      split; [reflexivity | split; reflexivity].
  - intros cfg w e Hla Hcaught.
    rewrite mission_start_outcome, or_dict, Hla, Hcaught.
    eexists. eexists. split; [reflexivity | split; [reflexivity | ]].
    apply start_mission_gps.
  - intros cfg w1 w2 la lo Hla Hlo. repeat apply conj.
    + rewrite start_sos_outcome, or_dict, Hla, Hlo.
      eexists. eexists. split; [reflexivity | split; reflexivity].
    + rewrite mission_start_outcome, or_dict, Hla, Hlo.
      eexists. eexists. split; [reflexivity | split; [reflexivity | ]].
      apply start_mission_gps.
    + exact (proj1 (float_unless_none_absent float_of_str _ _ Hla)).
    + exact (proj2 (float_unless_none_absent float_of_str _ _ Hla)).
    + exact (proj1 (float_unless_none_absent float_of_str _ _ Hlo)).
    + exact (proj2 (float_unless_none_absent float_of_str _ _ Hlo)).
Qed.

(** The hypotheses of [malformed_gps] at the body [{"lat": [], "lon": 2.0}],
    whose lat makes [float] raise TypeError, sent to the fresh v1 process. *)
Lemma malformed_gps_witness :
  Py.float_unless_none unread_float_of_str
    (field "lat" [("lat", Py.PList []); ("lon", Py.PFloat float_two)])
  = Py.Raise Py.TypeError
  /\ ValueError_or_TypeError Py.TypeError = true
  /\ exists w' r,
       Backend.start_sos unread_float_of_str
         (Py.PDict [("lat", Py.PList []); ("lon", Py.PFloat float_two)])
         (Sched.boot Backend.initial) = (w', Py.Ok r)
       /\ status_code r = 200
       /\ Backend.gps_location (Sched.globals w') = no_gps.
Proof.
  split; [reflexivity | split; [reflexivity | ]].
  exact (proj1 (malformed_gps unread_float_of_str
                  [("lat", Py.PList []); ("lon", Py.PFloat float_two)])
           (Sched.boot Backend.initial) Py.TypeError
           (or_introl eq_refl) eq_refl).
Defined.

(** C4 as stated fails in both generations: after a start request with the
    body [{"lat": 1.0}] the stored pair has a latitude and no longitude. *)
Lemma lat_alone_is_stored :
  Backend.gps_location
    (Sched.globals
       (fst (Backend.start_sos unread_float_of_str
               (Py.PDict [("lat", Py.PFloat float_one)])
               (Sched.boot Backend.initial))))
  = {| Backend.lat := Some float_one; Backend.lon := None |}
  /\ ShieldHer.gps_location
       (Sched.globals
          (fst (ShieldHer.mission_start ShieldHer.shipped unread_float_of_str
                  (Py.PDict [("lat", Py.PFloat float_one)])
                  (Sched.boot ShieldHer.initial))))
     = {| ShieldHer.lat := Some float_one; ShieldHer.lon := None |}
  /\ ~ as_a_unit (Some float_one) None.
Proof.
  split; [reflexivity | split; [reflexivity | ]].
  intros [_ H]. specialize (H eq_refl). discriminate.
Qed.

(** Beside the amended claim: in v1.1 a lon that [float] rejects does not
    clear a lat that was converted before it; v1 clears both. *)
Lemma bad_lon_beside_good_lat :
  ShieldHer.gps_location
    (Sched.globals
       (fst (ShieldHer.mission_start ShieldHer.shipped unread_float_of_str
               (Py.PDict [("lat", Py.PFloat float_one); ("lon", Py.PList [])])
               (Sched.boot ShieldHer.initial))))
  = {| ShieldHer.lat := Some float_one; ShieldHer.lon := None |}
  /\ Backend.gps_location
       (Sched.globals
          (fst (Backend.start_sos unread_float_of_str
                  (Py.PDict [("lat", Py.PFloat float_one); ("lon", Py.PList [])])
                  (Sched.boot Backend.initial))))
     = no_gps.
Proof.
  split; reflexivity.
Qed.

(** Beside the amended claim: an integer too large for a float makes
    [float] raise OverflowError, which no [except] clause names; the
    request fails and nothing is stored. *)
Lemma huge_lat_fails_the_request :
  Backend.start_sos unread_float_of_str
    (Py.PDict [("lat", Py.PInt (2 ^ 1024))]) (Sched.boot Backend.initial)
  = (Sched.boot Backend.initial, Py.Raise Py.OverflowError)
  /\ ShieldHer.mission_start ShieldHer.shipped unread_float_of_str
       (Py.PDict [("lat", Py.PInt (2 ^ 1024))]) (Sched.boot ShieldHer.initial)
     = (Sched.boot ShieldHer.initial, Py.Raise Py.OverflowError).
Proof.
  split; vm_compute; reflexivity.
Qed.

(** C10. With a latitude of exactly 0.0 and a longitude that converts (or
    is missing or null), [/start_sos] of v1 stores and returns the pair
    (0.0, lon) and says "without GPS (unavailable)", its note being chosen
    by the truth value of the stored latitude; [mission_start] of v1.1
    stores and returns the same pair and says "with GPS", its note being
    chosen by the latitude not being None. *)
Theorem zero_latitude_note :
  forall (float_of_str : string -> option Py.float) (cfg : ShieldHer.config)
         (d : list (string * Py.value)) (lo : option Py.float)
         (w1 : Backend.process) (w2 : ShieldHer.process),
    field "lat" d = Py.PFloat Py.float_zero ->
    Py.float_unless_none float_of_str (field "lon" d) = Py.Ok lo ->
    (exists w',
        Backend.start_sos float_of_str (Py.PDict d) w1 =
        (w', Py.Ok {| status_code := 200;
                      json := Py.PDict
                        [("message",
                          Py.PStr "SOS received. Drone activating without GPS (unavailable).");
                         ("gps", Py.PDict [("lat", Py.PFloat Py.float_zero);
                                           ("lon", coordinate lo)])] |})
        /\ Backend.gps_location (Sched.globals w')
           = {| Backend.lat := Some Py.float_zero; Backend.lon := lo |})
    /\ (exists w',
           ShieldHer.mission_start cfg float_of_str (Py.PDict d) w2 =
           (w', Py.Ok {| status_code := 200;
                         json := Py.PDict
                           [("status", Py.PStr "mission_active");
                            ("message", Py.PStr "Mission started with GPS.");
                            ("gps", Py.PDict [("lat", Py.PFloat Py.float_zero);
                                              ("lon", coordinate lo)])] |})
           /\ ShieldHer.gps_location (Sched.globals w')
              = {| ShieldHer.lat := Some Py.float_zero; ShieldHer.lon := lo |}).
Proof.
  intros float_of_str cfg d lo w1 w2 Hlat Hlon.
  assert (Hla : Py.float_unless_none float_of_str (field "lat" d)
                = Py.Ok (Some Py.float_zero)).
  { rewrite Hlat. reflexivity. }
  split.
  - rewrite start_sos_outcome, or_dict, Hla, Hlon.
    eexists. split; reflexivity.
  - rewrite mission_start_outcome, or_dict, Hla, Hlon.
    eexists. split; [reflexivity | apply start_mission_gps].
Qed.

(** The hypotheses of [zero_latitude_note] at the body
    [{"lat": 0.0, "lon": 2.0}]. *)
Lemma zero_latitude_note_witness :
  field "lat" [("lat", Py.PFloat Py.float_zero); ("lon", Py.PFloat float_two)]
  = Py.PFloat Py.float_zero
  /\ exists w',
       Backend.start_sos unread_float_of_str
         (Py.PDict [("lat", Py.PFloat Py.float_zero);
                    ("lon", Py.PFloat float_two)])
         (Sched.boot Backend.initial) =
       (w', Py.Ok {| status_code := 200;
                     json := Py.PDict
                       [("message",
                         Py.PStr "SOS received. Drone activating without GPS (unavailable).");
                        ("gps", Py.PDict [("lat", Py.PFloat Py.float_zero);
                                          ("lon", Py.PFloat float_two)])] |})
       /\ Backend.gps_location (Sched.globals w')
          = {| Backend.lat := Some Py.float_zero; Backend.lon := Some float_two |}.
Proof.
  split; [reflexivity | ].
  exact (proj1 (zero_latitude_note unread_float_of_str ShieldHer.shipped
                  [("lat", Py.PFloat Py.float_zero); ("lon", Py.PFloat float_two)]
                  (Some float_two) (Sched.boot Backend.initial)
                  (Sched.boot ShieldHer.initial) eq_refl eq_refl)).
Defined.

(* ================================================================== *)
(** * The patch view *)

Section PatchFacts.

Variable str_of_compound : Py.value -> string.
Variable cfg : ShieldHer.config.
Hypothesis manual_on : ShieldHer.ENABLE_MANUAL_TRIGGER cfg = true.

(** When [body or {}] is a dict the view goes through and does what
    [applyPartialPatch] says. *)
Lemma mission_patch_data (body : Py.value) (d : list (string * Py.value))
    (w : ShieldHer.process) :
  Py.or_ body (Py.PDict []) = Py.PDict d ->
  ShieldHer.mission_patch cfg str_of_compound body w
  = (Sched.assign (applyPartialPatch str_of_compound d) w,
     Py.Ok (patch_reply (Py.PDict d))).
Proof.
  intro Hdata.
  unfold ShieldHer.mission_patch. rewrite manual_on, Hdata.
  unfold_eff. unfold Py.contains, Py.getitem, applyPartialPatch, patch_reply.
  destruct w as [s ths l]. destruct s as [da ra st g b].
  cbn [negb].
  destruct (Py.lookup "ai_status" d) as [v1 | ];
    destruct (Py.lookup "drone_active" d) as [v2 | ];
    destruct (Py.lookup "recording_active" d) as [v3 | ];
    reflexivity.
Qed.

Lemma mission_patch_dict (d : list (string * Py.value)) (w : ShieldHer.process) :
  ShieldHer.mission_patch cfg str_of_compound (Py.PDict d) w
  = (Sched.assign (applyPartialPatch str_of_compound d) w,
     Py.Ok (patch_reply (Py.PDict d))).
Proof.
  apply mission_patch_data, or_dict.
Qed.

(** On any other body the view assigns nothing: it raises TypeError, or it
    finds none of its three keys and replies. *)
Lemma mission_patch_other (body : Py.value) (w : ShieldHer.process) :
  (forall d, Py.or_ body (Py.PDict []) <> Py.PDict d) ->
  ShieldHer.mission_patch cfg str_of_compound body w
  = (w, Py.Raise Py.TypeError)
  \/ ShieldHer.mission_patch cfg str_of_compound body w
     = (w, Py.Ok (patch_reply (Py.or_ body (Py.PDict [])))).
Proof.
  intro Hother.
  unfold ShieldHer.mission_patch. rewrite manual_on.
  unfold_eff. unfold patch_reply.
  cbn [negb].
  destruct (Py.or_ body (Py.PDict [])) as [ | b | z | f | s | l | d ];
    try (left; reflexivity).
  - unfold Py.contains, Py.getitem.
    destruct (String.index 0 "ai_status" s); [left; reflexivity | ].
    destruct (String.index 0 "drone_active" s); [left; reflexivity | ].
    destruct (String.index 0 "recording_active" s); [left; reflexivity | ].
    right. reflexivity.
  - unfold Py.contains, Py.getitem.
    destruct (existsb _ l); [left; reflexivity | ].
    destruct (existsb _ l); [left; reflexivity | ].
    destruct (existsb _ l); [left; reflexivity | ].
    right. reflexivity.
  - exfalso. apply (Hother d). reflexivity.
Qed.

End PatchFacts.

(** C5. With ENABLE_MANUAL_TRIGGER false, the patch view answers every
    body with 403 and the error message, and leaves the whole process,
    every field of the mission state included, as it was. *)
Theorem patch_disabled :
  forall (cfg : ShieldHer.config) (str_of_compound : Py.value -> string)
         (body : Py.value) (w : ShieldHer.process),
    ShieldHer.ENABLE_MANUAL_TRIGGER cfg = false ->
    ShieldHer.mission_patch cfg str_of_compound body w
    = (w, Py.Ok {| status_code := 403;
                   json := Py.PDict
                     [("error",
                       Py.PStr "Manual trigger is disabled in config.py.")] |}).
Proof.
  intros cfg str_of_compound body w Hoff.
  unfold ShieldHer.mission_patch. rewrite Hoff. reflexivity.
Qed.

(** [patch_disabled] on the hardened configuration, for a body that would
    otherwise raise both flags. *)
Lemma patch_disabled_witness :
  ShieldHer.ENABLE_MANUAL_TRIGGER hardened = false
  /\ ShieldHer.mission_patch hardened unread_str_of_compound
       (Py.PDict [("drone_active", Py.PBool true);
                  ("recording_active", Py.PBool true)])
       (Sched.boot ShieldHer.initial)
     = (Sched.boot ShieldHer.initial, Py.Ok patch_refusal).
Proof.
  split; [reflexivity | ].
  exact (patch_disabled hardened unread_str_of_compound
           (Py.PDict [("drone_active", Py.PBool true);
                      ("recording_active", Py.PBool true)])
           (Sched.boot ShieldHer.initial) eq_refl).
Defined.

(** C6. With manual patching on, the patch view given an object overwrites
    the status with [str] of the value when "ai_status" is among its keys,
    each flag with [bool] of the value when its key is, and leaves every
    other field as it was: the globals become what [applyPartialPatch]
    says. A body that is no object changes nothing. In particular an object
    with the one key "ai_status" changes the status alone. *)
Theorem patch_frame :
  forall (cfg : ShieldHer.config) (str_of_compound : Py.value -> string)
         (w : ShieldHer.process),
    ShieldHer.ENABLE_MANUAL_TRIGGER cfg = true ->
    (forall (d : list (string * Py.value)),
        let s := Sched.globals w in
        let s' := Sched.globals
                    (fst (ShieldHer.mission_patch cfg str_of_compound
                            (Py.PDict d) w)) in
        s' = applyPartialPatch str_of_compound d s
        /\ ShieldHer.ai_status s'
           = match Py.lookup "ai_status" d with
             | Some v => Py.PStr (Py.to_str str_of_compound v)
             | None => ShieldHer.ai_status s
             end
        /\ ShieldHer.drone_active s'
           = match Py.lookup "drone_active" d with
             | Some v => Py.truthy v
             | None => ShieldHer.drone_active s
             end
        /\ ShieldHer.recording_active s'
           = match Py.lookup "recording_active" d with
             | Some v => Py.truthy v
             | None => ShieldHer.recording_active s
             end
        /\ ShieldHer.gps_location s' = ShieldHer.gps_location s
        /\ ShieldHer.battery_level s' = ShieldHer.battery_level s)
    /\ (forall (body : Py.value),
           (forall d, Py.or_ body (Py.PDict []) <> Py.PDict d) ->
           fst (ShieldHer.mission_patch cfg str_of_compound body w) = w)
    /\ (forall (x : Py.value),
           Sched.globals
             (fst (ShieldHer.mission_patch cfg str_of_compound
                     (Py.PDict [("ai_status", x)]) w))
           = ShieldHer.set_ai_status (Py.PStr (Py.to_str str_of_compound x))
               (Sched.globals w)).
Proof.
  intros cfg str_of_compound w Hon. repeat apply conj.
  - intro d. cbv zeta.
    rewrite (mission_patch_dict str_of_compound cfg Hon d w).
    repeat split.
  - intros body Hother.
    destruct (mission_patch_other str_of_compound cfg Hon body w Hother)
      as [H | H]; rewrite H; reflexivity.
  - intro x.
    rewrite (mission_patch_dict str_of_compound cfg Hon [("ai_status", x)] w).
    reflexivity.
Qed.

(** [patch_frame] on the shipped configuration: after a mission start, the
    object [{"ai_status": 7}] sets the status to "7" and nothing else. *)
Lemma patch_frame_witness :
  ShieldHer.ENABLE_MANUAL_TRIGGER ShieldHer.shipped = true
  /\ Sched.globals
       (fst (ShieldHer.mission_patch ShieldHer.shipped unread_str_of_compound
               (Py.PDict [("ai_status", Py.PInt 7)])
               (fst (ShieldHer.start_mission ShieldHer.shipped
                       (Some float_one) (Some float_two)
                       (Sched.boot ShieldHer.initial)))))
     = {| ShieldHer.drone_active := true;
          ShieldHer.recording_active := true;
          ShieldHer.ai_status := Py.PStr "7";
          ShieldHer.gps_location :=
            {| ShieldHer.lat := Some float_one; ShieldHer.lon := Some float_two |};
          ShieldHer.battery_level := 95 |}.
Proof.
  split; [reflexivity | ].
  exact (proj2 (proj2 (patch_frame ShieldHer.shipped unread_str_of_compound
                         (fst (ShieldHer.start_mission ShieldHer.shipped
                                 (Some float_one) (Some float_two)
                                 (Sched.boot ShieldHer.initial)))
                         eq_refl))
           (Py.PInt 7)).
Defined.

(** C7, as amended. With manual patching on, whenever the patch view
    replies, the reply is 200 with "applied" holding the request body as it
    was received (the empty object when the body is missing, not JSON or
    false): the keys the view does not know and the values before coercion
    are echoed with the rest. For an object the view always replies. *)
Theorem patch_echo :
  forall (cfg : ShieldHer.config) (str_of_compound : Py.value -> string)
         (w : ShieldHer.process),
    ShieldHer.ENABLE_MANUAL_TRIGGER cfg = true ->
    (forall (body : Py.value) (w' : ShieldHer.process) (r : response),
        ShieldHer.mission_patch cfg str_of_compound body w = (w', Py.Ok r) ->
        r = {| status_code := 200;
               json := Py.PDict
                 [("status", Py.PStr "patched");
                  ("applied", Py.or_ body (Py.PDict []))] |})
    /\ (forall (d : list (string * Py.value)),
           snd (ShieldHer.mission_patch cfg str_of_compound (Py.PDict d) w)
           = Py.Ok {| status_code := 200;
                      json := Py.PDict [("status", Py.PStr "patched");
                                        ("applied", Py.PDict d)] |}).
Proof.
  intros cfg str_of_compound w Hon. split.
  - intros body w' r Hrun.
    destruct (Py.or_ body (Py.PDict [])) as [ | b | z | f | s | l | d ] eqn:Hdata.
    7: { rewrite (mission_patch_data str_of_compound cfg Hon body d w Hdata)
           in Hrun.
         injection Hrun as _ <-. reflexivity. }
    all: destruct (mission_patch_other str_of_compound cfg Hon body w) as [H | H];
      [ intros d Hd; rewrite Hdata in Hd; discriminate
      | rewrite H in Hrun; discriminate
      | rewrite H in Hrun; injection Hrun as _ <-; rewrite Hdata; reflexivity ].
  - intro d.
    rewrite (mission_patch_dict str_of_compound cfg Hon d w). reflexivity.
Qed.

(** [patch_echo] on the shipped configuration: the object
    [{"drone_active": 1}] is echoed with the integer it came with. *)
Lemma patch_echo_witness :
  ShieldHer.ENABLE_MANUAL_TRIGGER ShieldHer.shipped = true
  /\ snd (ShieldHer.mission_patch ShieldHer.shipped unread_str_of_compound
            (Py.PDict [("drone_active", Py.PInt 1)])
            (Sched.boot ShieldHer.initial))
     = Py.Ok {| status_code := 200;
                json := Py.PDict
                  [("status", Py.PStr "patched");
                   ("applied", Py.PDict [("drone_active", Py.PInt 1)])] |}.
Proof.
  split; [reflexivity | ].
  exact (proj2 (patch_echo ShieldHer.shipped unread_str_of_compound
                  (Sched.boot ShieldHer.initial) eq_refl)
           [("drone_active", Py.PInt 1)]).
Defined.

(** C7 as stated fails: the body [{"foo": 1}] holds no field the view
    applies, the process is left as it was, and yet "applied" comes back
    as [{"foo": 1}], not as the empty object. *)
Lemma unknown_field_is_echoed :
  ShieldHer.mission_patch ShieldHer.shipped unread_str_of_compound
    (Py.PDict [("foo", Py.PInt 1)]) (Sched.boot ShieldHer.initial)
  = (Sched.boot ShieldHer.initial,
     Py.Ok {| status_code := 200;
              json := Py.PDict [("status", Py.PStr "patched");
                                ("applied", Py.PDict [("foo", Py.PInt 1)])] |})
  /\ Py.PDict [("foo", Py.PInt 1)] <> Py.PDict [].
Proof.
  split; [reflexivity | discriminate].
Qed.

(** C8. For every string and every process, [update_ai_status] leaves
    exactly the process the patch view leaves (manual patching on) for the
    object with the one key "ai_status" and that string; both return, and
    the globals are what [applyPartialPatch] says for that object. *)
Theorem update_ai_status_is_patch :
  forall (cfg : ShieldHer.config) (str_of_compound : Py.value -> string)
         (status : string) (w : ShieldHer.process),
    ShieldHer.ENABLE_MANUAL_TRIGGER cfg = true ->
    fst (ShieldHer.update_ai_status (Py.PStr status) w)
    = fst (ShieldHer.mission_patch cfg str_of_compound
             (Py.PDict [("ai_status", Py.PStr status)]) w)
    /\ snd (ShieldHer.update_ai_status (Py.PStr status) w) = Py.Ok tt
    /\ snd (ShieldHer.mission_patch cfg str_of_compound
              (Py.PDict [("ai_status", Py.PStr status)]) w)
       = Py.Ok (patch_reply (Py.PDict [("ai_status", Py.PStr status)]))
    /\ Sched.globals (fst (ShieldHer.update_ai_status (Py.PStr status) w))
       = applyPartialPatch str_of_compound [("ai_status", Py.PStr status)]
           (Sched.globals w).
Proof.
  intros cfg str_of_compound status w Hon.
  rewrite (mission_patch_dict str_of_compound cfg Hon
             [("ai_status", Py.PStr status)] w).
  destruct w as [s ths l]. destruct s as [da ra st g b].
  repeat split.
Qed.

(** [update_ai_status_is_patch] on the shipped configuration, for the
    status "Human Detected" on the fresh process. *)
Lemma update_ai_status_is_patch_witness :
  ShieldHer.ENABLE_MANUAL_TRIGGER ShieldHer.shipped = true
  /\ fst (ShieldHer.update_ai_status (Py.PStr "Human Detected")
            (Sched.boot ShieldHer.initial))
     = fst (ShieldHer.mission_patch ShieldHer.shipped unread_str_of_compound
              (Py.PDict [("ai_status", Py.PStr "Human Detected")])
              (Sched.boot ShieldHer.initial)).
Proof.
  split; [reflexivity | ].
  exact (proj1 (update_ai_status_is_patch ShieldHer.shipped
                  unread_str_of_compound "Human Detected"
                  (Sched.boot ShieldHer.initial) eq_refl)).
Defined.

(* ================================================================== *)
(** * The status is a string *)

Section StatusInvariant.

Variable cfg : ShieldHer.config.
Variable float_of_str : string -> option Py.float.
Variable str_of_compound : Py.value -> string.

Lemma start_mission_settled (la lo : option Py.float) (w : ShieldHer.process) :
  settled w -> settled (fst (ShieldHer.start_mission cfg la lo w)).
Proof.
  intros (Hths & _ & Hbat).
  destruct (start_mission_outcome cfg la lo w)
    as (w' & Hrun & (_ & _ & _ & Hst) & Hbat' & Hths').
  rewrite Hrun. simpl. repeat split; [congruence | | congruence].
  rewrite Hst. reflexivity.
Qed.

Lemma mission_start_settled (body : Py.value) (w : ShieldHer.process) :
  settled w -> settled (fst (ShieldHer.mission_start cfg float_of_str body w)).
Proof.
  intro Hw. rewrite mission_start_outcome.
  destruct (Py.or_ body (Py.PDict [])) as [ | b | z | f | s | l | d ];
    try exact Hw.
  destruct (Py.float_unless_none float_of_str (field "lat" d)) as [la | e].
  - destruct (Py.float_unless_none float_of_str (field "lon" d)) as [lo | e].
    + apply start_mission_settled, Hw.
    + destruct (ValueError_or_TypeError e);
        [apply start_mission_settled, Hw | exact Hw].
  - destruct (ValueError_or_TypeError e);
      [apply start_mission_settled, Hw | exact Hw].
Qed.

Lemma mission_patch_settled (body : Py.value) (w : ShieldHer.process) :
  settled w -> settled (fst (ShieldHer.mission_patch cfg str_of_compound body w)).
Proof.
  intro Hw.
  destruct (ShieldHer.ENABLE_MANUAL_TRIGGER cfg) eqn:Hflag.
  - destruct (Py.or_ body (Py.PDict [])) as [ | b | z | f | s | l | d ] eqn:Hdata.
    7: { rewrite (mission_patch_data str_of_compound cfg Hflag body d w Hdata).
         destruct Hw as (Hths & Hst & Hbat).
         repeat split; [exact Hths | | exact Hbat].
         simpl. destruct (Py.lookup "ai_status" d); [reflexivity | exact Hst]. }
    all: destruct (mission_patch_other str_of_compound cfg Hflag body w) as [H | H];
      [ intros d Hd; rewrite Hdata in Hd; discriminate
      | rewrite H; exact Hw
      | rewrite H; exact Hw ].
  - unfold ShieldHer.mission_patch. rewrite Hflag. exact Hw.
Qed.

Lemma serve_settled (w : ShieldHer.process) (c : call) :
  settled w -> settled (serve cfg float_of_str str_of_compound w c).
Proof.
  intro Hw. destruct c as [body | | body | | status | secs]; simpl.
  - apply mission_start_settled, Hw.
  - exact Hw.
  - apply mission_patch_settled, Hw.
  - destruct Hw as (Hths & _ & Hbat).
    repeat split; [exact Hths | exact Hbat].
  - destruct Hw as (Hths & _ & Hbat).
    repeat split; [exact Hths | exact Hbat].
  - rewrite wait_no_thread; [exact Hw | exact (proj1 Hw)].
Qed.

Lemma fold_serve_settled (calls : list call) :
  forall w : ShieldHer.process,
    settled w ->
    settled (fold_left (serve cfg float_of_str str_of_compound) calls w).
Proof.
  induction calls as [ | c calls IH]; intros w Hw; simpl.
  - exact Hw.
  - apply IH, serve_settled, Hw.
Qed.

End StatusInvariant.

(** C9. From the server's start, after any sequence of requests to the four
    views, of calls of [update_ai_status] with a string and of pauses, under
    any configuration, the status held in the globals is a [str]. *)
Theorem ai_status_is_str :
  forall (cfg : ShieldHer.config) (float_of_str : string -> option Py.float)
         (str_of_compound : Py.value -> string) (calls : list call),
    Py.is_str
      (ShieldHer.ai_status
         (Sched.globals (run cfg float_of_str str_of_compound calls)))
    = true.
Proof.
  intros cfg float_of_str str_of_compound calls.
  apply (fold_serve_settled cfg float_of_str str_of_compound calls
           (Sched.boot ShieldHer.initial)).
  repeat split.
Qed.

(* ================================================================== *)
(** * Reset *)

Lemma randint_range (lo hi raw : Z) :
  lo <= hi -> lo <= Py.randint lo hi raw <= hi.
Proof.
  intro H. unfold Py.randint.
  pose proof (Z.mod_pos_bound raw (hi - lo + 1)). lia.
Qed.





(* ================================================================== *)
(** * v1 under any history: the simulation threads *)

Lemma pending_sleeps (th : Sched.thread Backend.drone_state) :
  pending th -> (1 <= sleep_left th)%nat /\ th <> [].
Proof.
  intros (st & Hok & ->).
  destruct st as [k | k | k]; simpl in *; split; try lia; discriminate.
Qed.

Lemma carried_refl (s : Backend.drone_state) : carried s s.
Proof. repeat split; auto. Qed.

Lemma carried_trans (s1 s2 s3 : Backend.drone_state) :
  carried s1 s2 -> carried s2 s3 -> carried s1 s3.
Proof.
  intros (G1 & B1 & D1 & R1 & L1) (G2 & B2 & D2 & R2 & L2).
  repeat split; try congruence; auto.
Qed.

(** One second of one simulation thread. *)
Lemma run_pending (th : Sched.thread Backend.drone_state) (s : Backend.drone_state) :
  pending th ->
  (snd (Sched.run_for 1 th s) = [] \/ pending (snd (Sched.run_for 1 th s)))
  /\ S (sleep_left (snd (Sched.run_for 1 th s))) = sleep_left th
  /\ (snd (Sched.run_for 1 th s) = [] ->
      Backend.ai_status (fst (Sched.run_for 1 th s)) = "Human Detected")
  /\ carried s (fst (Sched.run_for 1 th s))
  /\ (sets_drone th ->
      Backend.drone_active (fst (Sched.run_for 1 th s)) = true
      \/ sets_drone (snd (Sched.run_for 1 th s)))
  /\ (sets_recording th ->
      Backend.recording (fst (Sched.run_for 1 th s)) = true
      \/ sets_recording (snd (Sched.run_for 1 th s))).
Proof.
  intros (st & Hok & ->).
  stage_cases st Hok; simpl.
  all: split; [first [left; reflexivity | right; find_stage] | ].
  all: split; [reflexivity | ].
  all: split; [first [reflexivity | discriminate] | ].
  all: split; [repeat split; simpl; auto 10 | ].
  all: split.
  all: try (intros _; left; reflexivity).
  all: try (intros _; right; eexists; reflexivity).
  all: try (intros _; right; eexists; left; reflexivity).
  all: try (intros _; right; eexists; right; reflexivity).
  all: try (intros (k & Hk); discriminate Hk).
  all: try (intros (k & [Hk | Hk]); discriminate Hk).
Qed.

(** One second of all the simulation threads. *)
Lemma tick_pending (ths : list (Sched.thread Backend.drone_state)) :
  forall (s : Backend.drone_state) (k : nat),
    Forall pending ths ->
    Forall (fun th => (sleep_left th <= S k)%nat) ths ->
    Forall pending (snd (Sched.tick ths s))
    /\ Forall (fun th => (sleep_left th <= k)%nat) (snd (Sched.tick ths s))
    /\ (ths <> [] -> snd (Sched.tick ths s) = [] ->
        Backend.ai_status (fst (Sched.tick ths s)) = "Human Detected")
    /\ carried s (fst (Sched.tick ths s))
    /\ (Backend.drone_active s = true \/ Exists sets_drone ths ->
        Backend.drone_active (fst (Sched.tick ths s)) = true
        \/ Exists sets_drone (snd (Sched.tick ths s)))
    /\ (Backend.recording s = true \/ Exists sets_recording ths ->
        Backend.recording (fst (Sched.tick ths s)) = true
        \/ Exists sets_recording (snd (Sched.tick ths s))).
Proof.
  induction ths as [ | th rest IH]; intros s k Hp Hl.
  - simpl.
    split; [constructor | ]. split; [constructor | ].
    split; [intro H; contradiction H; reflexivity | ].
    split; [apply carried_refl | ].
    split; (intros [H | H]; [left; exact H | inversion H]).
  - inversion Hp as [ | ? ? Hth Hrest]; subst.
    inversion Hl as [ | ? ? Lth Lrest]; subst.
    destruct (run_pending th s Hth) as (Hshape & Hleft & Hdone & Hcar & Hdr & Hrec).
    simpl.
    destruct (Sched.run_for 1 th s) as [s1 th1]. simpl in *.
    destruct (IH s1 k Hrest Lrest) as (IHp & IHl & IHdone & IHcar & IHdr & IHrec).
    destruct (Sched.tick rest s1) as [s2 rest2] eqn:E2. simpl in *.
    assert (Hcar2 : carried s s2) by (eapply carried_trans; eassumption).
    destruct Hcar as (_ & _ & Hd1 & Hr1 & _).
    destruct IHcar as (_ & _ & Hd2 & Hr2 & _).
    destruct th1 as [ | i th1].
    + (* the thread has ended *)
      split; [exact IHp | ]. split; [exact IHl | ].
      split; [ | split; [exact Hcar2 | split]].
      * intros _ Hnil. destruct rest as [ | th' rest'].
        -- simpl in E2. injection E2 as <- _. apply Hdone. reflexivity.
        -- apply IHdone; [discriminate | exact Hnil].
      * intros [H | H].
        -- apply IHdr. left. auto.
        -- inversion H as [? ? Hs | ? ? Hs]; subst.
           ++ destruct (Hdr Hs) as [Hon | (k' & Hbad)]; [ | discriminate Hbad].
              apply IHdr. left. exact Hon.
           ++ apply IHdr. right. exact Hs.
      * intros [H | H].
        -- apply IHrec. left. auto.
        -- inversion H as [? ? Hs | ? ? Hs]; subst.
           ++ destruct (Hrec Hs) as [Hon | (k' & [Hbad | Hbad])];
                try discriminate Hbad.
              apply IHrec. left. exact Hon.
           ++ apply IHrec. right. exact Hs.
    + (* the thread goes on *)
      destruct Hshape as [Hbad | Hpend]; [discriminate Hbad | ].
      split; [constructor; assumption | ].
      split; [constructor; [simpl in *; lia | assumption] | ].
      split; [intros _ Hnil; discriminate Hnil | ].
      split; [exact Hcar2 | split].
      * intros [H | H].
        -- destruct IHdr as [Hon | Hex]; [left; auto | left; exact Hon | ].
           right. apply Exists_cons_tl. exact Hex.
        -- inversion H as [? ? Hs | ? ? Hs]; subst.
           ++ destruct (Hdr Hs) as [Hon | Hs'].
              ** destruct IHdr as [Hon2 | Hex]; [left; exact Hon | left; exact Hon2 | ].
                 right. apply Exists_cons_tl. exact Hex.
              ** right. apply Exists_cons_hd. exact Hs'.
           ++ destruct IHdr as [Hon2 | Hex]; [right; exact Hs | left; exact Hon2 | ].
              right. apply Exists_cons_tl. exact Hex.
      * intros [H | H].
        -- destruct IHrec as [Hon | Hex]; [left; auto | left; exact Hon | ].
           right. apply Exists_cons_tl. exact Hex.
        -- inversion H as [? ? Hs | ? ? Hs]; subst.
           ++ destruct (Hrec Hs) as [Hon | Hs'].
              ** destruct IHrec as [Hon2 | Hex]; [left; exact Hon | left; exact Hon2 | ].
                 right. apply Exists_cons_tl. exact Hex.
              ** right. apply Exists_cons_hd. exact Hs'.
           ++ destruct IHrec as [Hon2 | Hex]; [right; exact Hs | left; exact Hon2 | ].
              right. apply Exists_cons_tl. exact Hex.
Qed.

(** Any number of seconds keeps the threads simulation sequences. *)
Lemma elapse_keeps (n : nat) :
  forall (ths : list (Sched.thread Backend.drone_state)) (s : Backend.drone_state),
    Forall pending ths ->
    Forall (fun th => (sleep_left th <= 8)%nat) ths ->
    Forall pending (snd (Sched.elapse n ths s))
    /\ Forall (fun th => (sleep_left th <= 8)%nat) (snd (Sched.elapse n ths s))
    /\ carried s (fst (Sched.elapse n ths s)).
Proof.
  induction n as [ | n IH]; intros ths s Hp Hl; simpl.
  - split; [exact Hp | split; [exact Hl | apply carried_refl]].
  - destruct (tick_pending ths s 7 Hp Hl) as (Tp & Tl & _ & Tcar & _).
    destruct (Sched.tick ths s) as [s1 ths1]. simpl in *.
    assert (Tl8 : Forall (fun th => (sleep_left th <= 8)%nat) ths1).
    { eapply Forall_impl; [ | exact Tl]. simpl. intros th H. lia. }
    destruct (IH ths1 s1 Tp Tl8) as (Ep & El & Ecar).
    split; [exact Ep | split; [exact El | ]].
    eapply carried_trans; eassumption.
Qed.

(** Threads with at most [n] seconds to sleep are all over after [n]
    seconds; the last of them to end leaves "Human Detected". *)
Lemma elapse_finishes (n : nat) :
  forall (ths : list (Sched.thread Backend.drone_state)) (s : Backend.drone_state),
    Forall pending ths ->
    Forall (fun th => (sleep_left th <= n)%nat) ths ->
    snd (Sched.elapse n ths s) = []
    /\ (ths <> [] ->
        Backend.ai_status (fst (Sched.elapse n ths s)) = "Human Detected")
    /\ carried s (fst (Sched.elapse n ths s))
    /\ (Backend.drone_active s = true \/ Exists sets_drone ths ->
        Backend.drone_active (fst (Sched.elapse n ths s)) = true)
    /\ (Backend.recording s = true \/ Exists sets_recording ths ->
        Backend.recording (fst (Sched.elapse n ths s)) = true).
Proof.
  induction n as [ | n IH]; intros ths s Hp Hl.
  - assert (ths = []) as ->.
    { destruct ths as [ | th rest]; [reflexivity | ].
      inversion Hp; inversion Hl; subst.
      match goal with H : pending th |- _ => apply pending_sleeps in H end.
      lia. }
    simpl. split; [reflexivity | ].
    split; [intro H; contradiction H; reflexivity | ].
    split; [apply carried_refl | ].
    split; (intros [H | H]; [exact H | inversion H]).
  - simpl.
    destruct (tick_pending ths s n Hp Hl) as (Tp & Tl & Tdone & Tcar & Tdr & Trec).
    destruct (Sched.tick ths s) as [s1 ths1]. simpl in *.
    destruct (IH ths1 s1 Tp Tl) as (En & Edone & Ecar & Edr & Erec).
    split; [exact En | ].
    split; [ | split; [eapply carried_trans; eassumption | split]].
    + intro Hne. destruct ths1 as [ | th1 rest1].
      * rewrite elapse_no_thread. simpl. apply Tdone; [exact Hne | reflexivity].
      * apply Edone. discriminate.
    + intro H. apply Edr, Tdr, H.
    + intro H. apply Erec, Trec, H.
Qed.

Lemma armed_settled (g : Backend.gps) (w : Backend.process) :
  sos_settled w -> sos_settled (sos_armed g w).
Proof.
  intros (Hp & Hl & _ & Hb).
  split; [ | split; [ | split]]; simpl.
  - apply Forall_app. split; [exact Hp | ].
    constructor; [ | constructor].
    exists (ToActivate 2). split; [simpl; lia | reflexivity].
  - apply Forall_app. split; [exact Hl | ].
    constructor; [simpl; lia | constructor].
  - right. left. reflexivity.
  - exact Hb.
Qed.

Lemma wait_settled (secs : nat) (w : Backend.process) :
  sos_settled w -> sos_settled (Sched.wait secs w).
Proof.
  intros (Hp & Hl & Hlab & Hb).
  destruct (elapse_keeps secs (Sched.threads w) (Sched.globals w) Hp Hl)
    as (Ep & El & (_ & Ebat & _ & _ & Elab)).
  unfold Sched.wait.
  destruct (Sched.elapse secs (Sched.threads w) (Sched.globals w)) as [s ths].
  cbn [fst snd] in *.
  split; [exact Ep | split; [exact El | split]].
  - apply Elab, Hlab.
  - simpl. lia.
Qed.

Lemma sos_serve_settled (float_of_str : string -> option Py.float)
    (w : Backend.process) (c : sos_call) :
  sos_settled w -> sos_settled (sos_serve float_of_str w c).
Proof.
  intro Hw. destruct c as [body | | raw | secs]; simpl.
  - rewrite start_sos_outcome.
    destruct (Py.or_ body (Py.PDict [])) as [ | b | z | f | s | l | d ];
      try exact Hw.
    destruct (Py.float_unless_none float_of_str (field "lat" d)) as [la | e].
    + destruct (Py.float_unless_none float_of_str (field "lon" d)) as [lo | e].
      * apply armed_settled, Hw.
      * destruct (ValueError_or_TypeError e); [apply armed_settled, Hw | exact Hw].
    + destruct (ValueError_or_TypeError e); [apply armed_settled, Hw | exact Hw].
  - exact Hw.
  - destruct Hw as (Hp & Hl & _ & _).
    split; [exact Hp | split; [exact Hl | split]].
    + left. reflexivity.
    + apply (randint_range 85 100 raw). lia.
  - apply wait_settled, Hw.
Qed.

Lemma sos_run_settled (float_of_str : string -> option Py.float)
    (calls : list sos_call) :
  sos_settled (sos_run float_of_str calls).
Proof.
  unfold sos_run.
  assert (H0 : sos_settled (Sched.boot Backend.initial)).
  { split; [constructor | split; [constructor | split]].
    - left. reflexivity.
    - simpl. lia. }
  revert H0. generalize (Sched.boot Backend.initial).
  induction calls as [ | c calls IH]; intros w Hw; simpl.
  - exact Hw.
  - apply IH, sos_serve_settled, Hw.
Qed.

(** After eight seconds of quiet a settled process has no thread left. *)
Lemma settled_quiet (w : Backend.process) :
  sos_settled w ->
  Sched.threads (Sched.wait 8 w) = []
  /\ (Sched.threads w <> [] ->
      Backend.ai_status (Sched.globals (Sched.wait 8 w)) = "Human Detected")
  /\ carried (Sched.globals w) (Sched.globals (Sched.wait 8 w))
  /\ (Backend.drone_active (Sched.globals w) = true
      \/ Exists sets_drone (Sched.threads w) ->
      Backend.drone_active (Sched.globals (Sched.wait 8 w)) = true)
  /\ (Backend.recording (Sched.globals w) = true
      \/ Exists sets_recording (Sched.threads w) ->
      Backend.recording (Sched.globals (Sched.wait 8 w)) = true).
Proof.
  intros (Hp & Hl & _ & _).
  pose proof (elapse_finishes 8 (Sched.threads w) (Sched.globals w) Hp Hl) as H.
  unfold Sched.wait.
  destruct (Sched.elapse 8 (Sched.threads w) (Sched.globals w)) as [s ths].
  exact H.
Qed.

(** X1. Whatever requests the v1 server has served and whenever, eight
    seconds without a request leave no simulation thread alive, and from
    then on the process no longer changes by itself. *)
Theorem sequencers_end_within_8s :
  forall (float_of_str : string -> option Py.float) (calls : list sos_call),
    Sched.threads (Sched.wait 8 (sos_run float_of_str calls)) = []
    /\ forall t : nat,
         Sched.wait (8 + t) (sos_run float_of_str calls)
         = Sched.wait 8 (sos_run float_of_str calls).
Proof.
  intros float_of_str calls.
  destruct (settled_quiet _ (sos_run_settled float_of_str calls)) as (Hnil & _).
  split; [exact Hnil | ].
  intro t. rewrite wait_add. apply wait_no_thread. exact Hnil.
Qed.

(** X2. On v1, when a simulation thread is alive, eight seconds without a
    request later the status is "Human Detected", whatever was served
    before: a reset during the simulation does not keep "Standby". *)
Theorem live_sequencer_ends_detected :
  forall (float_of_str : string -> option Py.float) (calls : list sos_call),
    Sched.threads (sos_run float_of_str calls) <> [] ->
    Backend.ai_status (Sched.globals (Sched.wait 8 (sos_run float_of_str calls)))
    = "Human Detected".
Proof.
  intros float_of_str calls Hlive.
  destruct (settled_quiet _ (sos_run_settled float_of_str calls)) as (_ & Hhd & _).
  apply Hhd, Hlive.
Qed.

(** [live_sequencer_ends_detected] after one start and a reset three
    seconds later. *)
Lemma live_sequencer_ends_detected_witness :
  Sched.threads
    (sos_run unread_float_of_str [SosStart Py.PNone; SosPause 3; SosReset 4])
  <> []
  /\ Backend.ai_status
       (Sched.globals
          (Sched.wait 8
             (sos_run unread_float_of_str
                [SosStart Py.PNone; SosPause 3; SosReset 4])))
     = "Human Detected".
Proof.
  assert (H : Sched.threads
                (sos_run unread_float_of_str
                   [SosStart Py.PNone; SosPause 3; SosReset 4]) <> [])
    by discriminate.
  split; [exact H | ].
  exact (live_sequencer_ends_detected unread_float_of_str
           [SosStart Py.PNone; SosPause 3; SosReset 4] H).
Defined.

(** X3. On v1, a [/start_sos] that returns, served after any history and so
    beside any threads of earlier missions, is followed eight quiet seconds
    later by drone_active = true, recording = true, "Human Detected" and no
    thread alive; the location is the one this request stored and the
    battery the one before it. *)
Theorem start_completes_among_others :
  forall (float_of_str : string -> option Py.float) (calls : list sos_call)
         (body : Py.value) (w' : Backend.process) (r : response),
    Backend.start_sos float_of_str body (sos_run float_of_str calls)
    = (w', Py.Ok r) ->
    Sched.threads (Sched.wait 8 w') = []
    /\ Backend.drone_active (Sched.globals (Sched.wait 8 w')) = true
    /\ Backend.recording (Sched.globals (Sched.wait 8 w')) = true
    /\ Backend.ai_status (Sched.globals (Sched.wait 8 w')) = "Human Detected"
    /\ Backend.gps_location (Sched.globals (Sched.wait 8 w'))
       = Backend.gps_location (Sched.globals w')
    /\ Backend.battery_level (Sched.globals (Sched.wait 8 w'))
       = Backend.battery_level (Sched.globals (sos_run float_of_str calls)).
Proof.
  intros float_of_str calls body w' r Hrun.
  destruct (start_sos_returns _ _ _ _ _ Hrun) as (g & -> & _).
  pose proof (armed_settled g _ (sos_run_settled float_of_str calls)) as Hset.
  destruct (settled_quiet _ Hset) as (Hnil & Hhd & (Hg & Hb & _) & Hdr & Hrec).
  split; [exact Hnil | ].
  split.
  { apply Hdr. right. simpl. apply Exists_app. right.
    apply Exists_cons_hd. exists 2%nat. reflexivity. }
  split.
  { apply Hrec. right. simpl. apply Exists_app. right.
    apply Exists_cons_hd. exists 2%nat. left. reflexivity. }
  split.
  { apply Hhd. simpl. intro H. apply app_eq_nil in H. destruct H as [_ H].
    discriminate H. }
  split; [exact Hg | exact Hb].
Qed.

(** [start_completes_among_others] for a second start three seconds after
    a first. *)
Lemma start_completes_among_others_witness :
  Backend.start_sos unread_float_of_str Py.PNone
    (sos_run unread_float_of_str [SosStart Py.PNone; SosPause 3])
  = (sos_armed no_gps (sos_run unread_float_of_str [SosStart Py.PNone; SosPause 3]),
     Py.Ok (sos_reply no_gps))
  /\ Backend.drone_active
       (Sched.globals
          (Sched.wait 8
             (sos_armed no_gps
                (sos_run unread_float_of_str [SosStart Py.PNone; SosPause 3]))))
     = true.
Proof.
  split; [reflexivity | ].
  exact (proj1 (proj2 (start_completes_among_others unread_float_of_str
                         [SosStart Py.PNone; SosPause 3] Py.PNone
                         (sos_armed no_gps
                            (sos_run unread_float_of_str
                               [SosStart Py.PNone; SosPause 3]))
                         (sos_reply no_gps) eq_refl))).
Defined.

(** X5. On v1, after any sequence of requests and pauses, the status is one
    of the five labels the code assigns and the battery level is between
    85 and 100. *)
Theorem v1_state_invariant :
  forall (float_of_str : string -> option Py.float) (calls : list sos_call),
    In (Backend.ai_status (Sched.globals (sos_run float_of_str calls)))
       ["Standby"; "Initializing..."; "Drone Activated"; "Camera Recording";
        "Human Detected"]
    /\ 85 <= Backend.battery_level (Sched.globals (sos_run float_of_str calls))
       <= 100.
Proof.
  intros float_of_str calls.
  destruct (sos_run_settled float_of_str calls) as (_ & _ & Hlab & Hb).
  split; [exact Hlab | exact Hb].
Qed.

(** X4. On v1, a reset that comes [t] seconds (under eight) into a lone
    simulation does not stop its thread: eight seconds after the start the
    status is "Human Detected" again, drone_active is true only if the
    reset came before T+2s and recording only if it came before T+5s; the
    location stays absent and the battery is the one the reset drew. *)
Theorem reset_during_sequence :
  forall (float_of_str : string -> option Py.float) (body : Py.value)
         (w w' : Backend.process) (r : response) (raw : Z) (t : nat),
    Sched.threads w = [] ->
    Backend.start_sos float_of_str body w = (w', Py.Ok r) ->
    (t < 8)%nat ->
    Sched.threads (fst (Backend.reset_drone raw (Sched.wait t w'))) <> []
    /\ Sched.globals
         (Sched.wait (8 - t) (fst (Backend.reset_drone raw (Sched.wait t w'))))
       = {| Backend.drone_active := (t <? 2)%nat;
            Backend.recording := (t <? 5)%nat;
            Backend.ai_status := "Human Detected";
            Backend.gps_location := no_gps;
            Backend.battery_level := Py.randint 85 100 raw |}
    /\ Sched.threads
         (Sched.wait (8 - t) (fst (Backend.reset_drone raw (Sched.wait t w'))))
       = [].
Proof.
  intros float_of_str body w w' r raw t Hths Hrun Ht.
  destruct (start_sos_returns _ _ _ _ _ Hrun) as (g & -> & _).
  destruct w as [s0 ths l]. simpl in Hths. subst ths.
  do 8 (destruct t as [ | t];
        [split; [discriminate | split; reflexivity] | ]).
  lia.
Qed.

(** [reset_during_sequence] for a reset three seconds into the simulation:
    the drone flag is lost, the recording flag is not. *)
Lemma reset_during_sequence_witness :
  Sched.threads (Sched.boot Backend.initial) = []
  /\ (3 < 8)%nat
  /\ Sched.globals
       (Sched.wait (8 - 3)
          (fst (Backend.reset_drone 4
                  (Sched.wait 3 (sos_armed no_gps (Sched.boot Backend.initial))))))
     = {| Backend.drone_active := false;
          Backend.recording := true;
          Backend.ai_status := "Human Detected";
          Backend.gps_location := no_gps;
          Backend.battery_level := 89 |}.
Proof.
  split; [reflexivity | split; [repeat constructor | ]].
  exact (proj1 (proj2 (reset_during_sequence unread_float_of_str Py.PNone
                         (Sched.boot Backend.initial)
                         (sos_armed no_gps (Sched.boot Backend.initial))
                         (sos_reply no_gps) 4 3 eq_refl eq_refl
                         (le_S _ _ (le_S _ _ (le_S _ _ (le_S _ _ (le_n 4)))))))).
Defined.

(* ================================================================== *)
(** * v1.1 under any history *)

(** X6. On v1.1, after any sequence of calls, the reset view leaves
    exactly the globals of the module's load, battery level included. *)
Theorem reset_restores_initial :
  forall (cfg : ShieldHer.config) (float_of_str : string -> option Py.float)
         (str_of_compound : Py.value -> string) (calls : list call),
    Sched.globals
      (fst (ShieldHer.mission_reset (run cfg float_of_str str_of_compound calls)))
    = ShieldHer.initial.
Proof.
  intros cfg float_of_str str_of_compound calls.
  assert (Hs : settled (run cfg float_of_str str_of_compound calls)).
  { apply fold_serve_settled. repeat split. }
  destruct Hs as (_ & _ & Hbat).
  destruct (run cfg float_of_str str_of_compound calls) as [s ths l].
  destruct s as [da ra st g b]. simpl in *. subst b. reflexivity.
Qed.

(** What [start_mission] leaves, mode by mode. *)
Lemma start_mission_effect (cfg : ShieldHer.config) (la lo : option Py.float)
    (w : ShieldHer.process) :
  Sched.globals (fst (ShieldHer.start_mission cfg la lo w))
  = ShieldHer.set_ai_status (Py.PStr "Initializing")
      (ShieldHer.set_recording_active true
         (ShieldHer.set_drone_active true
            (ShieldHer.set_gps_location
               {| ShieldHer.lat := la; ShieldHer.lon := lo |} (Sched.globals w))))
  /\ Sched.threads (fst (ShieldHer.start_mission cfg la lo w)) = Sched.threads w
  /\ Sched.launched (fst (ShieldHer.start_mission cfg la lo w))
     = (Sched.launched w
        ++ if ShieldHer._is_jetson_mode cfg
           then [["python3"; "drone_demo.py"]; ["python3"; "ai_detect.py"]]
           else [])%list.
Proof.
  unfold ShieldHer.start_mission, ShieldHer._launch_drone_script,
    ShieldHer._launch_ai_script. unfold_eff.
  destruct (ShieldHer._is_jetson_mode cfg); simpl.
  - repeat split. rewrite <- app_assoc. reflexivity.
  - repeat split. rewrite app_nil_r. reflexivity.
Qed.

Lemma serve_same_mission (cfg1 cfg2 : ShieldHer.config)
    (float_of_str : string -> option Py.float)
    (str_of_compound : Py.value -> string)
    (w1 w2 : ShieldHer.process) (c : call) :
  ShieldHer.ENABLE_MANUAL_TRIGGER cfg1 = ShieldHer.ENABLE_MANUAL_TRIGGER cfg2 ->
  same_mission w1 w2 ->
  same_mission (serve cfg1 float_of_str str_of_compound w1 c)
               (serve cfg2 float_of_str str_of_compound w2 c).
Proof.
  intros Hflag [Hg Ht].
  assert (Hstart : forall la lo,
             same_mission (fst (ShieldHer.start_mission cfg1 la lo w1))
                          (fst (ShieldHer.start_mission cfg2 la lo w2))).
  { intros la lo.
    destruct (start_mission_effect cfg1 la lo w1) as (G1 & T1 & _).
    destruct (start_mission_effect cfg2 la lo w2) as (G2 & T2 & _).
    split; congruence. }
  destruct c as [body | | body | | status | secs]; simpl.
  - rewrite !mission_start_outcome.
    destruct (Py.or_ body (Py.PDict [])) as [ | b | z | f | s | l | d ];
      try (split; assumption).
    destruct (Py.float_unless_none float_of_str (field "lat" d)) as [la | e].
    + destruct (Py.float_unless_none float_of_str (field "lon" d)) as [lo | e].
      * apply Hstart.
      * destruct (ValueError_or_TypeError e); [apply Hstart | split; assumption].
    + destruct (ValueError_or_TypeError e); [apply Hstart | split; assumption].
  - split; assumption.
  - destruct (ShieldHer.ENABLE_MANUAL_TRIGGER cfg1) eqn:F1; symmetry in Hflag.
    + destruct (Py.or_ body (Py.PDict [])) as [ | b | z | f | s | l | d ] eqn:Hdata.
      7: { rewrite (mission_patch_data str_of_compound cfg1 F1 body d w1 Hdata).
           rewrite (mission_patch_data str_of_compound cfg2 Hflag body d w2 Hdata).
           split; simpl; congruence. }
      all: destruct (mission_patch_other str_of_compound cfg1 F1 body w1) as [H1 | H1];
        [ intros d Hd; rewrite Hdata in Hd; discriminate | | ];
        (destruct (mission_patch_other str_of_compound cfg2 Hflag body w2) as [H2 | H2];
         [ intros d Hd; rewrite Hdata in Hd; discriminate | | ]);
        rewrite H1, H2; split; assumption.
    + rewrite (patch_disabled cfg1 str_of_compound body w1 F1).
      rewrite (patch_disabled cfg2 str_of_compound body w2 Hflag).
      split; assumption.
  - split; simpl; congruence.
  - split; simpl; congruence.
  - unfold Sched.wait. rewrite Hg, Ht.
    destruct (Sched.elapse secs (Sched.threads w2) (Sched.globals w2)).
    split; reflexivity.
Qed.

(** X8. On v1.1, two configurations that agree on ENABLE_MANUAL_TRIGGER
    lead, through the same calls, to the same mission state: host, port and
    mission mode never reach the globals. *)
Theorem state_independent_of_mode :
  forall (cfg1 cfg2 : ShieldHer.config)
         (float_of_str : string -> option Py.float)
         (str_of_compound : Py.value -> string) (calls : list call),
    ShieldHer.ENABLE_MANUAL_TRIGGER cfg1 = ShieldHer.ENABLE_MANUAL_TRIGGER cfg2 ->
    Sched.globals (run cfg1 float_of_str str_of_compound calls)
    = Sched.globals (run cfg2 float_of_str str_of_compound calls).
Proof.
  intros cfg1 cfg2 float_of_str str_of_compound calls Hflag.
  unfold run.
  assert (H0 : same_mission (Sched.boot ShieldHer.initial)
                            (Sched.boot ShieldHer.initial)) by (split; reflexivity).
  revert H0.
  generalize (Sched.boot ShieldHer.initial) at 1 3.
  generalize (Sched.boot ShieldHer.initial).
  induction calls as [ | c calls IH]; intros w2 w1 Hsame; simpl.
  - exact (proj1 Hsame).
  - apply IH. apply serve_same_mission; assumption.
Qed.

(** [state_independent_of_mode] for the shipped configuration and the
    Jetson one. *)
Lemma state_independent_of_mode_witness :
  ShieldHer.ENABLE_MANUAL_TRIGGER ShieldHer.shipped
  = ShieldHer.ENABLE_MANUAL_TRIGGER jetson
  /\ Sched.globals
       (run ShieldHer.shipped unread_float_of_str unread_str_of_compound
          [Start Py.PNone; Patch (Py.PDict [("ai_status", Py.PStr "Monitoring")])])
     = Sched.globals
         (run jetson unread_float_of_str unread_str_of_compound
            [Start Py.PNone; Patch (Py.PDict [("ai_status", Py.PStr "Monitoring")])]).
Proof.
  split; [reflexivity | ].
  exact (state_independent_of_mode ShieldHer.shipped jetson unread_float_of_str
           unread_str_of_compound
           [Start Py.PNone; Patch (Py.PDict [("ai_status", Py.PStr "Monitoring")])]
           eq_refl).
Defined.

Lemma serve_launches_nothing (cfg : ShieldHer.config)
    (float_of_str : string -> option Py.float)
    (str_of_compound : Py.value -> string)
    (w : ShieldHer.process) (c : call) :
  ShieldHer._is_jetson_mode cfg = false ->
  Sched.launched (serve cfg float_of_str str_of_compound w c) = Sched.launched w.
Proof.
  intro Hmode.
  assert (Hstart : forall la lo,
             Sched.launched (fst (ShieldHer.start_mission cfg la lo w))
             = Sched.launched w).
  { intros la lo.
    destruct (start_mission_effect cfg la lo w) as (_ & _ & L).
    rewrite L, Hmode. apply app_nil_r. }
  destruct c as [body | | body | | status | secs]; simpl.
  - rewrite mission_start_outcome.
    destruct (Py.or_ body (Py.PDict [])) as [ | b | z | f | s | l | d ];
      try reflexivity.
    destruct (Py.float_unless_none float_of_str (field "lat" d)) as [la | e].
    + destruct (Py.float_unless_none float_of_str (field "lon" d)) as [lo | e].
      * apply Hstart.
      * destruct (ValueError_or_TypeError e); [apply Hstart | reflexivity].
    + destruct (ValueError_or_TypeError e); [apply Hstart | reflexivity].
  - reflexivity.
  - destruct (ShieldHer.ENABLE_MANUAL_TRIGGER cfg) eqn:F.
    + destruct (Py.or_ body (Py.PDict [])) as [ | b | z | f | s | l | d ] eqn:Hdata.
      7: { rewrite (mission_patch_data str_of_compound cfg F body d w Hdata).
           reflexivity. }
      all: destruct (mission_patch_other str_of_compound cfg F body w) as [H | H];
        [ intros d Hd; rewrite Hdata in Hd; discriminate | | ];
        rewrite H; reflexivity.
    + rewrite (patch_disabled cfg str_of_compound body w F). reflexivity.
  - reflexivity.
  - reflexivity.
  - unfold Sched.wait.
    destruct (Sched.elapse secs (Sched.threads w) (Sched.globals w)).
    reflexivity.
Qed.

(** X7. On v1.1, when MISSION_MODE is not "JETSON", no sequence of calls
    ever hands a command line to [subprocess.Popen]. *)
Theorem local_mode_never_launches :
  forall (cfg : ShieldHer.config) (float_of_str : string -> option Py.float)
         (str_of_compound : Py.value -> string) (calls : list call),
    ShieldHer.MISSION_MODE cfg <> "JETSON" ->
    Sched.launched (run cfg float_of_str str_of_compound calls) = [].
Proof.
  intros cfg float_of_str str_of_compound calls Hmode.
  assert (Hj : ShieldHer._is_jetson_mode cfg = false).
  { unfold ShieldHer._is_jetson_mode. apply String.eqb_neq. exact Hmode. }
  unfold run.
  assert (H0 : Sched.launched (Sched.boot ShieldHer.initial) = []) by reflexivity.
  revert H0. generalize (Sched.boot ShieldHer.initial).
  induction calls as [ | c calls IH]; intros w Hw; simpl.
  - exact Hw.
  - apply IH. rewrite serve_launches_nothing; assumption.
Qed.

(** [local_mode_never_launches] for the shipped configuration and two
    starts. *)
Lemma local_mode_never_launches_witness :
  ShieldHer.MISSION_MODE ShieldHer.shipped <> "JETSON"
  /\ Sched.launched
       (run ShieldHer.shipped unread_float_of_str unread_str_of_compound
          [Start Py.PNone; Reset; Start Py.PNone])
     = [].
Proof.
  assert (H : ShieldHer.MISSION_MODE ShieldHer.shipped <> "JETSON")
    by discriminate.
  split; [exact H | ].
  exact (local_mode_never_launches ShieldHer.shipped unread_float_of_str
           unread_str_of_compound [Start Py.PNone; Reset; Start Py.PNone] H).
Defined.

(** A body that is false in Python becomes the empty dict. *)
Lemma or_falsy (body : Py.value) :
  Py.truthy body = false -> Py.or_ body (Py.PDict []) = Py.PDict [].
Proof.
  intro H. unfold Py.or_. rewrite H. reflexivity.
Qed.

(** X9. A start request whose body is missing, not JSON or false in Python,
    or is an object whose lat and lon are both missing or null, starts the
    mission without a location in both generations: both coordinates
    absent, the note "without GPS (unavailable)", status 200; on v1.1 the
    mission is live. *)
Theorem start_without_gps :
  forall (cfg : ShieldHer.config) (float_of_str : string -> option Py.float)
         (body : Py.value) (w1 : Backend.process) (w2 : ShieldHer.process),
    Py.truthy body = false
    \/ (exists d, body = Py.PDict d
                  /\ field "lat" d = Py.PNone /\ field "lon" d = Py.PNone) ->
    Backend.start_sos float_of_str body w1
    = (sos_armed no_gps w1,
       Py.Ok {| status_code := 200;
                json := Py.PDict
                  [("message",
                    Py.PStr "SOS received. Drone activating without GPS (unavailable).");
                   ("gps", Py.PDict [("lat", Py.PNone); ("lon", Py.PNone)])] |})
    /\ ShieldHer.mission_start cfg float_of_str body w2
       = (fst (ShieldHer.start_mission cfg None None w2),
          Py.Ok {| status_code := 200;
                   json := Py.PDict
                     [("status", Py.PStr "mission_active");
                      ("message",
                       Py.PStr "Mission started without GPS (unavailable).");
                      ("gps", Py.PDict [("lat", Py.PNone); ("lon", Py.PNone)])] |})
    /\ mission_live None None
         (Sched.globals (fst (ShieldHer.mission_start cfg float_of_str body w2))).
Proof.
  intros cfg float_of_str body w1 w2 Hbody.
  assert (Hd : exists d, Py.or_ body (Py.PDict []) = Py.PDict d
                         /\ field "lat" d = Py.PNone /\ field "lon" d = Py.PNone).
  { destruct Hbody as [Hfalse | (d & -> & Hla & Hlo)].
    - exists []. rewrite (or_falsy body Hfalse). repeat split.
    - exists d. rewrite or_dict. repeat split; assumption. }
  destruct Hd as (d & Hdata & Hla & Hlo).
  assert (Hstart : ShieldHer.mission_start cfg float_of_str body w2
                   = (fst (ShieldHer.start_mission cfg None None w2),
                      Py.Ok (mission_reply None None))).
  { rewrite mission_start_outcome, Hdata, Hla, Hlo. reflexivity. }
  split; [ | split].
  - rewrite start_sos_outcome, Hdata, Hla, Hlo. reflexivity.
  - exact Hstart.
  - rewrite Hstart. simpl.
    destruct (start_mission_outcome cfg None None w2) as (w' & Hrun & Hlive & _).
    rewrite Hrun. exact Hlive.
Qed.

(** [start_without_gps] for the body the console sends,
    [{"lat": null, "lon": null}], on the fresh v1.1 process. *)
Lemma start_without_gps_witness :
  field "lat" [("lat", Py.PNone); ("lon", Py.PNone)] = Py.PNone
  /\ field "lon" [("lat", Py.PNone); ("lon", Py.PNone)] = Py.PNone
  /\ mission_live None None
       (Sched.globals
          (fst (ShieldHer.mission_start ShieldHer.shipped unread_float_of_str
                  (Py.PDict [("lat", Py.PNone); ("lon", Py.PNone)])
                  (Sched.boot ShieldHer.initial)))).
Proof.
  split; [reflexivity | split; [reflexivity | ]].
  exact (proj2 (proj2 (start_without_gps ShieldHer.shipped unread_float_of_str
                         (Py.PDict [("lat", Py.PNone); ("lon", Py.PNone)])
                         (Sched.boot Backend.initial)
                         (Sched.boot ShieldHer.initial)
                         (or_intror
                            (ex_intro _ [("lat", Py.PNone); ("lon", Py.PNone)]
                               (conj eq_refl (conj eq_refl eq_refl))))))).
Defined.

(** X10. A start request whose body is JSON, true in Python and not an
    object (a non-empty list or string, a non-zero number, [true]) makes
    both start views raise AttributeError, which they do not catch: the
    request fails and the process is left exactly as it was. *)
Theorem non_object_body_fails_start :
  forall (cfg : ShieldHer.config) (float_of_str : string -> option Py.float)
         (body : Py.value) (w1 : Backend.process) (w2 : ShieldHer.process),
    Py.truthy body = true ->
    (forall d, body <> Py.PDict d) ->
    Backend.start_sos float_of_str body w1 = (w1, Py.Raise Py.AttributeError)
    /\ ShieldHer.mission_start cfg float_of_str body w2
       = (w2, Py.Raise Py.AttributeError).
Proof.
  intros cfg float_of_str body w1 w2 Htrue Hnot.
  rewrite start_sos_outcome, mission_start_outcome.
  unfold Py.or_. rewrite Htrue.
  destruct body as [ | b | z | f | s | l | d ]; try (split; reflexivity).
  exfalso. apply (Hnot d). reflexivity.
Qed.

(** [non_object_body_fails_start] for the body [[1]]. *)
Lemma non_object_body_fails_start_witness :
  Py.truthy (Py.PList [Py.PInt 1]) = true
  /\ Backend.start_sos unread_float_of_str (Py.PList [Py.PInt 1])
       (Sched.boot Backend.initial)
     = (Sched.boot Backend.initial, Py.Raise Py.AttributeError).
Proof.
  split; [reflexivity | ].
  refine (proj1 (non_object_body_fails_start ShieldHer.shipped
                   unread_float_of_str (Py.PList [Py.PInt 1])
                   (Sched.boot Backend.initial) (Sched.boot ShieldHer.initial)
                   eq_refl _)).
  intros d H. discriminate H.
Defined.

Lemma coordinate_inj (a b : option Py.float) :
  coordinate a = coordinate b -> a = b.
Proof.
  destruct a, b; simpl; intro H; try discriminate; congruence.
Qed.

(** X11. The state views show the whole mission state: two processes for
    which [/status] (v1) or [/api/mission/state] (v1.1) return the same
    JSON have the same globals. *)
Theorem snapshot_is_faithful :
  (forall w1 w2 : Backend.process,
      snd (Backend.status w1) = snd (Backend.status w2) ->
      Sched.globals w1 = Sched.globals w2)
  /\ (forall w1 w2 : ShieldHer.process,
         snd (ShieldHer.mission_state w1) = snd (ShieldHer.mission_state w2) ->
         Sched.globals w1 = Sched.globals w2).
Proof.
  split; intros w1 w2 H.
  - destruct w1 as [[d1 r1 a1 [la1 lo1] b1] t1 l1].
    destruct w2 as [[d2 r2 a2 [la2 lo2] b2] t2 l2].
    simpl in *. injection H as -> -> -> Hla Hlo ->.
    apply coordinate_inj in Hla, Hlo. subst. reflexivity.
  - destruct w1 as [[d1 r1 a1 [la1 lo1] b1] t1 l1].
    destruct w2 as [[d2 r2 a2 [la2 lo2] b2] t2 l2].
    simpl in *. injection H as -> -> -> Hla Hlo ->.
    apply coordinate_inj in Hla, Hlo. subst. reflexivity.
Qed.

(** [snapshot_is_faithful] for two v1.1 processes that differ in what
    they have launched only. *)
Lemma snapshot_is_faithful_witness :
  snd (ShieldHer.mission_state (Sched.boot ShieldHer.initial))
  = snd (ShieldHer.mission_state
           (Sched.popen ["python3"; "drone_demo.py"] (Sched.boot ShieldHer.initial)))
  /\ Sched.globals (Sched.boot ShieldHer.initial)
     = Sched.globals
         (Sched.popen ["python3"; "drone_demo.py"] (Sched.boot ShieldHer.initial)).
Proof.
  split; [reflexivity | ].
  exact (proj2 snapshot_is_faithful (Sched.boot ShieldHer.initial)
           (Sched.popen ["python3"; "drone_demo.py"] (Sched.boot ShieldHer.initial))
           eq_refl).
Defined.

(* ================================================================== *)
(** * The developer's console *)

(** A character outside [chars] stays at the head. *)
Lemma rstrip_keep (chars : string) (c : ascii) (rest : string) :
  ManualTrigger.char_in c chars = false ->
  ManualTrigger.rstrip chars (String c rest) = String c (ManualTrigger.rstrip chars rest).
Proof.
  intro H. simpl. rewrite H. destruct (ManualTrigger.rstrip chars rest); reflexivity.
Qed.

(** A trailing character of [chars] is dropped. *)
Lemma rstrip_app (chars : string) (c : ascii) (s : string) :
  ManualTrigger.char_in c chars = true ->
  ManualTrigger.rstrip chars (s ++ String c EmptyString) = ManualTrigger.rstrip chars s.
Proof.
  intro H. induction s as [ | c' s IH]; simpl.
  - rewrite H. reflexivity.
  - rewrite IH. reflexivity.
Qed.

(** What [ManualTrigger.rstrip] returns ends with no character of [chars]. *)
Lemma rstrip_end (chars : string) (s p : string) (c : ascii) :
  ManualTrigger.rstrip chars s = p ++ String c EmptyString -> ManualTrigger.char_in c chars = false.
Proof.
  revert p. induction s as [ | c' s IH]; intros p H; simpl in H.
  - destruct p; discriminate H.
  - destruct (ManualTrigger.rstrip chars s) as [ | c2 kept] eqn:E.
    + destruct (ManualTrigger.char_in c' chars) eqn:Hc'; [destruct p; discriminate H | ].
      destruct p as [ | c3 p]; simpl in H.
      * injection H as <-. exact Hc'.
      * injection H as _ H. destruct p; discriminate H.
    + destruct p as [ | c3 p]; simpl in H; [discriminate H | ].
      injection H as _ H. exact (IH p H).
Qed.

Lemma rstrip_idempotent (chars : string) (s : string) :
  ManualTrigger.rstrip chars (ManualTrigger.rstrip chars s) = ManualTrigger.rstrip chars s.
Proof.
  induction s as [ | c s IH]; simpl; [reflexivity | ].
  destruct (ManualTrigger.rstrip chars s) as [ | c2 kept] eqn:E.
  - destruct (ManualTrigger.char_in c chars) eqn:Hc; simpl; [reflexivity | ].
    rewrite Hc. reflexivity.
  - change (ManualTrigger.rstrip chars (String c (String c2 kept)) = String c (String c2 kept)).
    simpl. simpl in IH. rewrite IH. reflexivity.
Qed.

Lemma prefix_cons (c : ascii) (s1 s2 : string) :
  String.prefix (String c s1) (String c s2) = String.prefix s1 s2.
Proof.
  cbn [String.prefix]. destruct (ascii_dec c c) as [_ | n]; [reflexivity | ].
  contradiction n. reflexivity.
Qed.

Lemma prefix_empty (s : string) : String.prefix EmptyString s = true.
Proof. destruct s; reflexivity. Qed.

(** A string that starts with "http" still does once its slashes are
    stripped. *)
Lemma rstrip_slash_http (s : string) :
  ManualTrigger.startswith s "http" = true -> ManualTrigger.startswith (ManualTrigger.rstrip "/" s) "http" = true.
Proof.
  unfold ManualTrigger.startswith.
  destruct s as [ | c1 [ | c2 [ | c3 [ | c4 rest]]]];
    cbn [String.prefix]; try discriminate.
  all: destruct (ascii_dec "h" c1) as [<- | ]; [ | discriminate].
  all: try discriminate.
  all: destruct (ascii_dec "t" c2) as [<- | ]; [ | discriminate].
  all: try discriminate.
  all: destruct (ascii_dec "t" c3) as [<- | ]; [ | discriminate].
  all: try discriminate.
  destruct (ascii_dec "p" c4) as [<- | ]; [ | discriminate].
  intros _.
  rewrite !rstrip_keep by reflexivity.
  rewrite !prefix_cons. apply prefix_empty.
Qed.

Lemma prefixed_http (host : string) :
  ManualTrigger.startswith ("http://" ++ host) "http" = true.
Proof.
  unfold ManualTrigger.startswith. cbn [String.append].
  rewrite !prefix_cons. apply prefix_empty.
Qed.

(** Appending a slash does not change whether a host starts with "http". *)
Lemma startswith_http_slash (host : string) :
  ManualTrigger.startswith (host ++ "/") "http" = ManualTrigger.startswith host "http".
Proof.
  unfold ManualTrigger.startswith.
  destruct host as [ | c1 [ | c2 [ | c3 [ | c4 rest]]]];
    cbn [String.prefix String.append]; try reflexivity.
  all: destruct (ascii_dec "h" c1); [ | reflexivity].
  all: try reflexivity.
  all: destruct (ascii_dec "t" c2); [ | reflexivity].
  all: try reflexivity.
  all: destruct (ascii_dec "t" c3); [ | reflexivity].
  all: try reflexivity.
  all: destruct (ascii_dec "p" c4); [ | reflexivity].
  rewrite !prefix_empty. reflexivity.
Qed.

(** X12. Whatever the host, [build_base_url] returns a string that starts
    with "http" and does not end with a slash. *)
Theorem build_base_url_shape :
  forall host : string,
    ManualTrigger.startswith (ManualTrigger.build_base_url host) "http" = true
    /\ (forall p : string, ManualTrigger.build_base_url host <> p ++ "/").
Proof.
  intro host. split.
  - unfold ManualTrigger.build_base_url.
    destruct (ManualTrigger.startswith host "http") eqn:H; simpl negb; cbv iota.
    + apply rstrip_slash_http, H.
    + apply rstrip_slash_http, prefixed_http.
  - intros p H. unfold ManualTrigger.build_base_url in H.
    apply rstrip_end in H. discriminate H.
Qed.

(** X13. [build_base_url] is idempotent, and a slash appended to the host
    does not change what it returns. *)
Theorem build_base_url_idempotent :
  forall host : string,
    ManualTrigger.build_base_url (ManualTrigger.build_base_url host) = ManualTrigger.build_base_url host
    /\ ManualTrigger.build_base_url (host ++ "/") = ManualTrigger.build_base_url host.
Proof.
  intro host. split.
  - pose proof (proj1 (build_base_url_shape host)) as H.
    unfold ManualTrigger.build_base_url at 1. rewrite H. simpl negb. cbv iota.
    unfold ManualTrigger.build_base_url. apply rstrip_idempotent.
  - unfold ManualTrigger.build_base_url. rewrite startswith_http_slash.
    destruct (ManualTrigger.startswith host "http"); simpl negb; cbv iota.
    + apply (rstrip_app "/" "/" host). reflexivity.
    + change (ManualTrigger.rstrip "/" (("http://" ++ host) ++ "/")
              = ManualTrigger.rstrip "/" ("http://" ++ host)).
      apply (rstrip_app "/" "/" ("http://" ++ host)). reflexivity.
Qed.

Section ConsoleFacts.

Variable cfg : ShieldHer.config.
Variable float_of_str : string -> option Py.float.
Variable str_of_compound : Py.value -> string.

(** Whatever the body and the flag, the patch view keeps the location, the
    battery, the threads and the launches; with the flag off, everything. *)
Lemma mission_patch_keeps (body : Py.value) (w : ShieldHer.process) :
  ShieldHer.gps_location
    (Sched.globals (fst (ShieldHer.mission_patch cfg str_of_compound body w)))
  = ShieldHer.gps_location (Sched.globals w)
  /\ ShieldHer.battery_level
       (Sched.globals (fst (ShieldHer.mission_patch cfg str_of_compound body w)))
     = ShieldHer.battery_level (Sched.globals w)
  /\ (ShieldHer.ENABLE_MANUAL_TRIGGER cfg = false ->
      fst (ShieldHer.mission_patch cfg str_of_compound body w) = w).
Proof.
  destruct (ShieldHer.ENABLE_MANUAL_TRIGGER cfg) eqn:F.
  - destruct (Py.or_ body (Py.PDict [])) as [ | b | z | f | s | l | d ] eqn:Hdata.
    7: { rewrite (mission_patch_data str_of_compound cfg F body d w Hdata).
         repeat split. discriminate. }
    all: destruct (mission_patch_other str_of_compound cfg F body w) as [H | H];
      [ intros d Hd; rewrite Hdata in Hd; discriminate | | ];
      rewrite H; repeat split; discriminate.
  - rewrite (patch_disabled cfg str_of_compound body w F). repeat split.
Qed.

(** A patch the console reports as failed has changed nothing. *)
Lemma api_patch_state_false (payload : Py.value) (p : ManualTrigger.peer) :
  snd (ManualTrigger.api_patch_state cfg str_of_compound payload p) = false ->
  fst (ManualTrigger.api_patch_state cfg str_of_compound payload p) = p.
Proof.
  unfold ManualTrigger.api_patch_state, ManualTrigger.request.
  destruct p as [ | w]; [reflexivity | ].
  destruct (ShieldHer.ENABLE_MANUAL_TRIGGER cfg) eqn:F.
  - destruct (Py.or_ payload (Py.PDict [])) as [ | b | z | f | s | l | d ] eqn:Hdata.
    7: { rewrite (mission_patch_data str_of_compound cfg F payload d w Hdata).
         simpl. discriminate. }
    all: destruct (mission_patch_other str_of_compound cfg F payload w) as [H | H];
      [ intros d Hd; rewrite Hdata in Hd; discriminate | | ];
      rewrite H; simpl; first [reflexivity | discriminate].
  - rewrite (patch_disabled cfg str_of_compound payload w F). reflexivity.
Qed.

(** X14. [api_patch_state]: a patch reported as failed has left the server
    as it was; for an object the report is True exactly when the server is
    up with manual patching on, and the server then holds what
    [applyPartialPatch] says; with no server the report is False. *)
Theorem patch_report :
  (forall (payload : Py.value) (p : ManualTrigger.peer),
      ManualTrigger.encodable payload = true ->
      snd (ManualTrigger.api_patch_state cfg str_of_compound payload p) = false ->
      fst (ManualTrigger.api_patch_state cfg str_of_compound payload p) = p)
  /\ (forall (d : list (string * Py.value)) (w : ShieldHer.process),
         ManualTrigger.encodable (Py.PDict d) = true ->
         ManualTrigger.api_patch_state cfg str_of_compound (Py.PDict d)
           (ManualTrigger.Up w)
         = if ShieldHer.ENABLE_MANUAL_TRIGGER cfg
           then (ManualTrigger.Up
                   (Sched.assign (applyPartialPatch str_of_compound d) w), true)
           else (ManualTrigger.Up w, false))
  /\ (forall payload : Py.value,
         ManualTrigger.encodable payload = true ->
         ManualTrigger.api_patch_state cfg str_of_compound payload
           ManualTrigger.Down
         = (ManualTrigger.Down, false)).
Proof.
  split; [intros payload p _; apply api_patch_state_false | split].
  2: { intros payload _. reflexivity. }
  - intros d w _. unfold ManualTrigger.api_patch_state, ManualTrigger.request.
    destruct (ShieldHer.ENABLE_MANUAL_TRIGGER cfg) eqn:F.
    + rewrite (mission_patch_dict str_of_compound cfg F d w). reflexivity.
    + rewrite (patch_disabled cfg str_of_compound (Py.PDict d) w F). reflexivity.
Qed.

(** The server a console call leaves, whatever the view answered. *)
Lemma request_up (view : Eff.M ShieldHer.process response) (w : ShieldHer.process) :
  fst (ManualTrigger.request view (ManualTrigger.Up w)) = ManualTrigger.Up (fst (view w)).
Proof.
  unfold ManualTrigger.request. destruct (view w) as [w' [r | e]]; reflexivity.
Qed.

Lemma perform_up (a : ManualTrigger.action) (w : ShieldHer.process) :
  fst (ManualTrigger.perform cfg float_of_str str_of_compound a (ManualTrigger.Up w))
  = ManualTrigger.Up (fst (match a with
             | ManualTrigger.StartMission =>
                 ShieldHer.mission_start cfg float_of_str
                   (Py.PDict [("lat", Py.PNone); ("lon", Py.PNone)])
             | ManualTrigger.PatchState payload =>
                 ShieldHer.mission_patch cfg str_of_compound payload
             | ManualTrigger.PrintState => ShieldHer.mission_state
             | ManualTrigger.ResetMission => ShieldHer.mission_reset
             end w)).
Proof.
  destruct a as [ | payload | | ]; unfold ManualTrigger.perform, ManualTrigger.api_start_mission,
    ManualTrigger.api_patch_state, ManualTrigger.api_get_state, ManualTrigger.api_reset.
  all: match goal with
       | |- context [ManualTrigger.request ?v (ManualTrigger.Up ?w0)] =>
           pose proof (request_up v w0) as H;
           destruct (ManualTrigger.request v (ManualTrigger.Up w0)) as [p' [e | res]]; simpl in H; subst p'
       end.
  all: try reflexivity.
  all: destruct (ManualTrigger.raise_for_status res); reflexivity.
Qed.

(** The entries of the menu: "1" starts, "9" resets, the others patch or
    print. *)
Lemma entry_kinds (choice label : string) (a : ManualTrigger.action) :
  ManualTrigger.entry choice ManualTrigger.options = Some (label, a) ->
  (choice = "1" /\ a = ManualTrigger.StartMission)
  \/ (choice = "9" /\ a = ManualTrigger.ResetMission)
  \/ a = ManualTrigger.PrintState
  \/ (exists payload, a = ManualTrigger.PatchState payload).
Proof.
  unfold ManualTrigger.options. cbn [ManualTrigger.entry].
  repeat match goal with
         | |- context [String.eqb ?k ?c] =>
             destruct (String.eqb k c) eqn:?E
         end.
  all: intro H; try discriminate H; injection H as <- <-.
  all: repeat match goal with
              | H : String.eqb _ _ = true |- _ =>
                  apply String.eqb_eq in H; subst
              end.
  all: first [ left; split; reflexivity
             | right; left; split; reflexivity
             | right; right; left; reflexivity
             | right; right; right; eexists; reflexivity ].
Qed.

(** X15. One turn of the console's menu against a running server: the
    battery level is never changed; only the choices "1" and "9" can change
    the location; with manual patching off no other choice changes anything;
    a choice that is not in the menu sends nothing. *)
Theorem menu_turn_frame :
  forall (choice : string) (w : ShieldHer.process),
    exists w',
      fst (ManualTrigger.menu_turn cfg float_of_str str_of_compound choice (ManualTrigger.Up w)) = ManualTrigger.Up w'
      /\ ShieldHer.battery_level (Sched.globals w')
         = ShieldHer.battery_level (Sched.globals w)
      /\ (choice <> "1" -> choice <> "9" ->
          ShieldHer.gps_location (Sched.globals w')
          = ShieldHer.gps_location (Sched.globals w))
      /\ (choice <> "1" -> choice <> "9" ->
          ShieldHer.ENABLE_MANUAL_TRIGGER cfg = false -> w' = w)
      /\ (ManualTrigger.entry choice ManualTrigger.options = None -> w' = w).
Proof.
  intros choice w. unfold ManualTrigger.menu_turn.
  destruct (String.eqb choice "q").
  { exists w. repeat split. }
  destruct (ManualTrigger.entry choice ManualTrigger.options) as [[label a] | ] eqn:E.
  2: { exists w. repeat split. }
  pose proof (perform_up a w) as Hup.
  destruct (ManualTrigger.perform cfg float_of_str str_of_compound a (ManualTrigger.Up w)) as [p' [[ | ] | ]];
    simpl in Hup; subst p'; simpl fst.
  all: eexists; split; [reflexivity | ].
  all: destruct (entry_kinds choice label a E)
         as [[-> ->] | [[-> ->] | [-> | [payload ->]]]].
  all: try (split; [ | split; [intro H; contradiction H; reflexivity | ];
                     split; [intro H; contradiction H; reflexivity | discriminate]]).
  all: try (split; [ | split; [intros _ H; contradiction H; reflexivity | ];
                     split; [intros _ H; contradiction H; reflexivity | discriminate]]).
  all: try (destruct (mission_patch_keeps payload w) as (Hg & Hb & Hoff);
            split; [exact Hb | split; [intros _ _; exact Hg | ];
                    split; [intros _ _; exact Hoff | discriminate]]).
  all: try (repeat split; discriminate).
  all: try reflexivity.
  all: rewrite mission_start_outcome, or_dict; simpl;
    destruct (start_mission_outcome cfg None None w) as (w' & Hrun & _ & Hb & _);
    rewrite Hrun; exact Hb.
Qed.

End ConsoleFacts.

(** [patch_report] with manual patching off: the object that would raise
    the drone flag is reported as failed and changes nothing. *)
Lemma patch_report_witness :
  ManualTrigger.encodable (Py.PDict [("drone_active", Py.PBool true)]) = true
  /\ snd (ManualTrigger.api_patch_state hardened unread_str_of_compound
            (Py.PDict [("drone_active", Py.PBool true)])
            (ManualTrigger.Up (Sched.boot ShieldHer.initial))) = false
  /\ fst (ManualTrigger.api_patch_state hardened unread_str_of_compound
            (Py.PDict [("drone_active", Py.PBool true)])
            (ManualTrigger.Up (Sched.boot ShieldHer.initial)))
     = ManualTrigger.Up (Sched.boot ShieldHer.initial).
Proof.
  split; [reflexivity | split; [reflexivity | ]].
  exact (proj1 (patch_report hardened unread_str_of_compound)
           (Py.PDict [("drone_active", Py.PBool true)])
           (ManualTrigger.Up (Sched.boot ShieldHer.initial)) eq_refl eq_refl).
Defined.

(** [menu_turn_frame] for the choice "4" with manual patching off. *)
Lemma menu_turn_frame_witness :
  "4" <> "1" /\ "4" <> "9"
  /\ ShieldHer.ENABLE_MANUAL_TRIGGER hardened = false
  /\ exists w',
       fst (ManualTrigger.menu_turn hardened unread_float_of_str
              unread_str_of_compound "4"
              (ManualTrigger.Up (Sched.boot ShieldHer.initial)))
       = ManualTrigger.Up w'
       /\ w' = Sched.boot ShieldHer.initial.
Proof.
  assert (H1 : "4" <> "1") by discriminate.
  assert (H9 : "4" <> "9") by discriminate.
  split; [exact H1 | split; [exact H9 | split; [reflexivity | ]]].
  destruct (menu_turn_frame hardened unread_float_of_str unread_str_of_compound
              "4" (Sched.boot ShieldHer.initial))
    as (w' & Hup & _ & _ & Hoff & _).
  exists w'. split; [exact Hup | exact (Hoff H1 H9 eq_refl)].
Defined.
